(** * Creator Insight Portal API: a shallow embedding of [main.py]

    The handlers of the FastAPI application are embedded as Rocq functions.
    Conventions used throughout:

    - Python [str] is [string] (a sequence of one-byte characters);
    - Python [int] is [Z];
    - a raised exception is the [Raise] case of [result]; [try]/[except
      Exception] is [try_except];
    - the wall clock is an explicit argument: [now : Z] is the reading
      [int(datetime.utcnow().timestamp())] taken when a token is checked, and
      [exp : Z] is the reading
      [int((datetime.utcnow() + timedelta(hours=1)).timestamp())] taken when
      a token is issued; nothing is assumed on how the two readings relate;
    - the module-level object [db] and the helper [get_documents] imported
      from [database] are an explicit argument of type [database];
    - Python [float] values are exact rationals ([Q]), so the rounding
      error and the overflow of binary64 arithmetic are not part of this
      reading; module [Binary64] evaluates the float expressions that the
      handlers execute on their constants in IEEE 754 binary64. *)

From Stdlib Require Import ZArith QArith Qround Lia Lqa Bool List.
From Stdlib Require Import Ascii String.
From Stdlib Require Import Decimal DecimalString DecimalZ.
From Stdlib Require Import Uint63 PrimFloat FloatOps SpecFloat.
Import ListNotations.

Local Open Scope string_scope.
Local Open Scope Z_scope.

(** ** Exceptions *)

Inductive exn : Type :=
| ValueError (msg : string)
| ZeroDivisionError
| ValidationError
| StoreError (msg : string)
| HTTPException (status_code : Z) (detail : string).

Inductive result (A : Type) : Type :=
| Ok (a : A)
| Raise (e : exn).

Arguments Ok {A} a.
Arguments Raise {A} e.

Definition bind {A B : Type} (r : result A) (k : A -> result B) : result B :=
  match r with
  | Ok a => k a
  | Raise e => Raise e
  end.

Notation "x <- r ;; k" := (bind r (fun x => k))
  (at level 61, r at next level, right associativity).

Definition fmap {A B : Type} (f : A -> B) (r : result A) : result B :=
  match r with
  | Ok a => Ok (f a)
  | Raise e => Raise e
  end.

(** [try: body except Exception as e: handler(e)] *)
Definition try_except {A : Type} (body : result A) (handler : exn -> result A)
  : result A :=
  match body with
  | Ok a => Ok a
  | Raise e => handler e
  end.

Definition succeeds {A : Type} (r : result A) : Prop :=
  exists a, r = Ok a.

(** ** Python string primitives *)

Module Str.

(** Truthiness of a [str]: only the empty string is falsy. *)
Definition truthy (s : string) : bool :=
  match s with
  | EmptyString => false
  | String _ _ => true
  end.

(** [str.split(sep)] for a non-empty separator: the string is scanned from
    the left, every occurrence of [sep] closes the current field and the scan
    resumes after it.  [skip] counts the characters of a matched separator
    that are still to be dropped; [cur] is the field being read. *)
Fixpoint split_aux (sep : string) (skip : nat) (cur s : string) : list string :=
  match s with
  | EmptyString => [cur]
  | String c s' =>
      match skip with
      | S k => split_aux sep k cur s'
      | O =>
          if prefix sep s
          then cur :: split_aux sep (String.length sep - 1) EmptyString s'
          else split_aux sep 0 (cur ++ String c EmptyString) s'
      end
  end.

(** [s.split(sep)]; an empty separator raises [ValueError]. *)
Definition split (sep s : string) : result (list string) :=
  match sep with
  | EmptyString => Raise (ValueError "empty separator")
  | String _ _ => Ok (split_aux sep 0 EmptyString s)
  end.

(** [sub in s] *)
Fixpoint contains (sub s : string) : bool :=
  prefix sub s ||
  match s with
  | EmptyString => false
  | String _ s' => contains sub s'
  end.

(** [s.endswith(c)] for a one-character [c] *)
Fixpoint ends_with (c : ascii) (s : string) : bool :=
  match s with
  | EmptyString => false
  | String a EmptyString => Ascii.eqb a c
  | String _ s' => ends_with c s'
  end.

(** [str(n)] for an [int]. *)
Definition of_int (n : Z) : string :=
  NilZero.string_of_int (Z.to_int n).

Definition is_space (c : ascii) : bool :=
  let n := nat_of_ascii c in
  ((9 <=? n) && (n <=? 13) || (n =? 32))%nat.

Definition is_digit (c : ascii) : bool :=
  let n := nat_of_ascii c in
  ((48 <=? n) && (n <=? 57))%nat.

Fixpoint lstrip (s : string) : string :=
  match s with
  | EmptyString => EmptyString
  | String c s' => if is_space c then lstrip s' else s
  end.

Fixpoint rstrip (s : string) : string :=
  match s with
  | EmptyString => EmptyString
  | String c s' =>
      match rstrip s' with
      | EmptyString => if is_space c then EmptyString else String c EmptyString
      | r => String c r
      end
  end.

Definition strip (s : string) : string := rstrip (lstrip s).

(** The digits of an integer literal: one or more decimal digits, with
    single underscores allowed between two digits.  [after_digit] tells
    whether the previous character was a digit.  The result is the literal
    without its underscores. *)
Fixpoint literal_digits (after_digit : bool) (s : string) : option string :=
  match s with
  | EmptyString => if after_digit then Some EmptyString else None
  | String c s' =>
      if is_digit c
      then option_map (String c) (literal_digits true s')
      else if Ascii.eqb c "_" && after_digit
           then literal_digits false s'
           else None
  end.

Definition magnitude (s : string) : option Z :=
  match literal_digits false s with
  | None => None
  | Some ds => option_map Z.of_uint (NilEmpty.uint_of_string ds)
  end.

(** [int(s)] in base 10: surrounding whitespace is ignored, one sign is
    allowed, anything else that is not an integer literal raises
    [ValueError]. *)
Definition to_int (s : string) : result Z :=
  let invalid := Raise (ValueError "invalid literal for int() with base 10") in
  match strip s with
  | EmptyString => invalid
  | String c body =>
      if Ascii.eqb c "-" then
        match magnitude body with Some m => Ok (- m) | None => invalid end
      else if Ascii.eqb c "+" then
        match magnitude body with Some m => Ok m | None => invalid end
      else
        match magnitude (String c body) with Some m => Ok m | None => invalid end
  end.

End Str.

(** ** Authentication (demo token) *)

Record HTTPAuthorizationCredentials : Type := {
  scheme : string;
  credentials : string
}.

Record AuthRequest : Type := {
  email : string;
  password : string
}.

Record TokenResponse : Type := {
  access_token : string;
  token_type : string;
  expires_in : Z
}.

Definition FAKE_SECRET : string := "creator-insight-demo-secret".

(** [exp] is the value of the local [exp]: the clock reading taken one hour
    ahead of [datetime.utcnow()] when the token is issued. *)
Definition create_fake_token (exp : Z) (email : string) : string :=
  "token::" ++ email ++ "::" ++ Str.of_int exp ++ "::" ++ FAKE_SECRET.

(** The body of the [try] block of [get_current_user]. *)
Definition check_token (now : Z) (token : string) : result (option string) :=
  parts <- Str.split "::" token ;;
  match parts with
  | [_; email; exp; secret] =>
      if negb (String.eqb secret FAKE_SECRET) then Ok None
      else
        e <- Str.to_int exp ;;
        if e <? now then Ok None else Ok (Some email)
  | _ => Ok None
  end.

(** [creds] is [None] when the request carries no bearer credentials
    ([HTTPBearer(auto_error=False)]). *)
Definition get_current_user (now : Z) (creds : option HTTPAuthorizationCredentials)
  : result (option string) :=
  match creds with
  | None => Ok None
  | Some c =>
      let token := credentials c in
      try_except (check_token now token) (fun _ => Ok None)
  end.

Definition login (exp : Z) (data : AuthRequest) : result TokenResponse :=
  if negb (Str.truthy (email data)) || negb (Str.truthy (password data))
  then Raise (HTTPException 400 "Email and password required")
  else
    let token := create_fake_token exp (email data) in
    Ok {| access_token := token; token_type := "bearer"; expires_in := 3600 |}.


(** ** Numbers: Python floats read as exact rationals *)

Module Num.

(** Rounding to the nearest integer, ties to the even one. *)
Definition round_half_even (x : Q) : Z :=
  let f := Qfloor x in
  match Qcompare (x - inject_Z f) (1 # 2) with
  | Lt => f
  | Gt => f + 1
  | Eq => if Z.even f then f else f + 1
  end.

(** [round(x, 2)] *)
Definition round2 (x : Q) : Q := Qred (round_half_even (x * 100) # 100).

(** [min(a, b)]: the second argument only when it is strictly smaller. *)
Definition min (a b : Q) : Q := if Qle_bool a b then a else b.

(** [a / b] on two [int]s *)
Definition truediv (a b : Z) : result Q :=
  if b =? 0 then Raise ZeroDivisionError else Ok (inject_Z a / inject_Z b)%Q.

(** [int(x)]: truncation toward zero *)
Definition trunc (x : Q) : Z :=
  if Qle_bool 0 x then Qfloor x else Qceiling x.

End Num.

(** ** Achievements *)

Record AchievementLevelResponse : Type := {
  level : string
}.

Record ProgressResponse : Type := {
  points : Z;
  nextLevel : string;
  progressPercent : Q
}.

Record UpdateAchievementRequest : Type := {
  creatorId : string;
  pointsDelta : Z
}.

(** The body of [get_creator_level] below its first line, for any value of
    the local [points]. *)
Definition creator_level_for (points : Z) : AchievementLevelResponse :=
  let level := "Bronze" in
  let level := if points >=? 2000 then "Silver" else level in
  let level := if points >=? 5000 then "Gold" else level in
  let level := if points >=? 10000 then "Platinum" else level in
  {| level := level |}.

Definition get_creator_level (creatorId : option string) : AchievementLevelResponse :=
  let points := 1860 in
  creator_level_for points.

Definition thresholds : list (string * Z) :=
  [("Bronze", 0); ("Silver", 2000); ("Gold", 5000); ("Platinum", 10000)].

(** The [for lvl, th in thresholds] loop with its [break]: [next] holds
    [(next_level, next_threshold)] and is overwritten by the first entry
    whose threshold exceeds [points]. *)
Fixpoint scan_thresholds (points : Z) (ths : list (string * Z)) (next : string * Z)
  : string * Z :=
  match ths with
  | [] => next
  | (lvl, th) :: rest =>
      if points <? th then (lvl, th) else scan_thresholds points rest next
  end.

(** The body of [get_progress_to_next_level] below its first line. *)
Definition progress_for (points : Z) : result ProgressResponse :=
  let '(next_level, next_threshold) :=
    scan_thresholds points thresholds ("Silver", 2000) in
  progress <-
    (if negb (next_threshold =? 0)
     then
       ratio <- Num.truediv points next_threshold ;;
       Ok (Num.min 100 (Num.round2 (ratio * 100)))
     else Ok 100%Q) ;;
  Ok {| points := points; nextLevel := next_level; progressPercent := progress |}.

Definition get_progress_to_next_level (creatorId : option string)
  : result ProgressResponse :=
  let points := 1860 in
  progress_for points.

(** The progress rule in the words of the specification: 100 when no
    threshold is strictly greater than [p], otherwise
    [min(100, round(p / nextThreshold * 100, 2))] with [nextThreshold] the
    first threshold strictly greater than [p]. *)
Definition first_above (p : Z) (ths : list (string * Z)) : option (string * Z) :=
  find (fun e => p <? snd e) ths.

Definition spec_progress (p : Z) : result Q :=
  match first_above p thresholds with
  | None => Ok 100%Q
  | Some (_, nextThreshold) =>
      ratio <- Num.truediv p nextThreshold ;;
      Ok (Num.min 100 (Num.round2 (ratio * 100)))
  end.

(** A handler that may read and write the persistent state [W]. *)
Definition handler (W A : Type) : Type := W -> result A * W.

Record UpdateAchievementResponse : Type := {
  upd_status : string;
  upd_creatorId : string;
  upd_pointsAdded : Z
}.

Definition update_achievements {W : Type} (body : UpdateAchievementRequest)
  : handler W UpdateAchievementResponse :=
  fun w =>
    (Ok {| upd_status := "ok";
           upd_creatorId := creatorId body;
           upd_pointsAdded := pointsDelta body |}, w).

(** ** The document store ([database.db], [database.get_documents]) *)

(** Values held by the fields of a stored document. *)
Inductive value : Type :=
| VNone
| VStr (s : string)
| VInt (n : Z)
| VObjectId (hex : string).

(** A document is a [dict] from field names to values. *)
Definition document : Type := list (string * value).

(** [d.get(key)] and [d.get(key, default)] *)
Fixpoint doc_get (d : document) (key : string) (default : value) : value :=
  match d with
  | [] => default
  | (k, v) :: d' => if String.eqb k key then v else doc_get d' key default
  end.

(** [str(v)] *)
Definition value_str (v : value) : string :=
  match v with
  | VNone => "None"
  | VStr s => s
  | VInt n => Str.of_int n
  | VObjectId hex => hex
  end.

(** The operations the handlers call on a connected store; each may raise.
    [truth] is the outcome of the test [if db]. *)
Record store : Type := {
  truth : result bool;
  count_documents : string -> document -> result Z;
  get_documents : string -> result (list document);
  find_one : string -> document -> result (option document);
  list_collection_names : result (list string)
}.

(** [db] is [None] when no connection could be set up. *)
Definition database : Type := option store.

(** [if db] *)
Definition db_truth (db : database) : result bool :=
  match db with
  | None => Ok false
  | Some st => truth st
  end.

(** A call [db.op(...)] that is only reached when [db] is not [None]. *)
Definition on_store {A : Type} (db : database) (op : store -> result A) : result A :=
  match db with
  | None => Raise (StoreError "'NoneType' object has no such attribute")
  | Some st => op st
  end.

Definition exn_str (e : exn) : string :=
  match e with
  | ValueError msg => msg
  | ZeroDivisionError => "division by zero"
  | ValidationError => "validation error"
  | StoreError msg => msg
  | HTTPException code detail => Str.of_int code ++ ": " ++ detail
  end.

(** ** Helpers *)

Definition _safe_count (db : database) (collection : string)
  (filter_dict : option document) : result Z :=
  try_except
    (b <- db_truth db ;;
     if b
     then on_store db (fun st =>
            count_documents st collection
              (match filter_dict with Some ((_ :: _) as f) => f | _ => [] end))
     else Ok 0)
    (fun _ => Ok 0).

(** [n or default] on [int]s *)
Definition int_or (n default : Z) : Z := if n =? 0 then default else n.

(** ** Dashboard *)

Record SummaryResponse : Type := {
  totalCourses : Z;
  totalEnrollments : Z;
  activeLearners : Z
}.

Definition dashboard_summary (db : database) (user : option string)
  : result SummaryResponse :=
  c <- _safe_count db "course" None ;;
  let total_courses := int_or c 8 in
  e <- _safe_count db "enrollment" None ;;
  let total_enrollments := int_or e 1240 in
  let active_learners :=
    Z.max (Num.trunc (inject_Z total_enrollments * 0.6)) 500 in
  Ok {| totalCourses := total_courses;
        totalEnrollments := total_enrollments;
        activeLearners := active_learners |}.

(** The route [GET /dashboard/summary]: the dependency [get_current_user]
    runs first and its value is passed to the handler. *)
Definition dashboard_summary_route (now : Z) (db : database)
  (creds : option HTTPAuthorizationCredentials) : result SummaryResponse :=
  user <- get_current_user now creds ;;
  dashboard_summary db user.

(** ** Courses *)

Record CourseItem : Type := {
  id : string;
  title : string;
  category : string
}.

(** Validation of a [str] field of a response model. *)
Definition as_str (v : value) : result string :=
  match v with
  | VStr s => Ok s
  | _ => Raise ValidationError
  end.

(** [CourseItem(id=str(d.get("_id")), title=d.get("title", "Untitled"),
    category=d.get("category", "General"))] *)
Definition course_item_of (d : document) : result CourseItem :=
  let i := value_str (doc_get d "_id" VNone) in
  t <- as_str (doc_get d "title" (VStr "Untitled")) ;;
  c <- as_str (doc_get d "category" (VStr "General")) ;;
  Ok {| id := i; title := t; category := c |}.

(** [for d in docs: items.append(...)] *)
Fixpoint append_course_items (items : list CourseItem) (docs : list document)
  : result (list CourseItem) :=
  match docs with
  | [] => Ok items
  | d :: docs' =>
      item <- course_item_of d ;;
      append_course_items (items ++ [item]) docs'
  end.

Definition demo_courses : list CourseItem :=
  [ {| id := "c1"; title := "Mastering Python"; category := "Programming" |};
    {| id := "c2"; title := "Data Visualization"; category := "Analytics" |};
    {| id := "c3"; title := "Teaching with AI"; category := "Education" |} ].

Definition get_courses (db : database) : result (list CourseItem) :=
  let items := [] in
  items <-
    try_except
      (b <- db_truth db ;;
       docs <- (if b then on_store db (fun st => get_documents st "course")
                else Ok []) ;;
       append_course_items items docs)
      (fun _ => Ok []) ;;
  let items := match items with [] => demo_courses | _ :: _ => items end in
  Ok items.

Definition get_course (db : database) (course_id : string) : result document :=
  doc <-
    try_except
      (b <- db_truth db ;;
       if b
       then on_store db (fun st => find_one st "course" [("_id", VStr course_id)])
       else Ok None)
      (fun _ => Ok None) ;;
  Ok match doc with
     | Some ((_ :: _) as d) => d
     | _ => [("id", VStr course_id); ("title", VStr "Course");
             ("category", VStr "General")]
     end.

(** ** Root & health *)

Record TestResponse : Type := {
  backend : string;
  database_status : string;
  database_url : string;
  database_name : string;
  connection_status : string;
  collections : list string
}.

Definition set_database (r : TestResponse) (s : string) : TestResponse :=
  {| backend := backend r; database_status := s;
     database_url := database_url r; database_name := database_name r;
     connection_status := connection_status r; collections := collections r |}.

Definition set_connection_status (r : TestResponse) (s : string) : TestResponse :=
  {| backend := backend r; database_status := database_status r;
     database_url := database_url r; database_name := database_name r;
     connection_status := s; collections := collections r |}.

Definition set_collections (r : TestResponse) (l : list string) : TestResponse :=
  {| backend := backend r; database_status := database_status r;
     database_url := database_url r; database_name := database_name r;
     connection_status := connection_status r; collections := l |}.

(** [os.getenv(name)] truthiness decides between the two labels. *)
Definition env_label (env : string -> option string) (name : string) : string :=
  match env name with
  | Some (String _ _) => "✅ Set"
  | _ => "❌ Not Set"
  end.

(** [GET /test].  The response dict is mutated step by step, so what was
    written before an exception stays in the response. *)
Definition test_database (env : string -> option string) (db : database)
  : result TestResponse :=
  let response :=
    {| backend := "✅ Running";
       database_status := "❌ Not Available";
       database_url := env_label env "DATABASE_URL";
       database_name := env_label env "DATABASE_NAME";
       connection_status := "Not Connected";
       collections := [] |} in
  match db with
  | None => Ok response
  | Some st =>
      let response := set_database response "✅ Available" in
      let response := set_connection_status response "Connected" in
      match list_collection_names st with
      | Ok names =>
          let response := set_collections response (firstn 10 names) in
          let response := set_database response "✅ Connected & Working" in
          Ok response
      | Raise e =>
          Ok (set_database response
                ("⚠️  Connected but Error: " ++ substring 0 80 (exn_str e)))
      end
  end.

(** ** Reviews *)

Record Review : Type := {
  learnerId : string;
  rating : Q;
  reviewText : string;
  createdAt : string
}.

Record ReviewsResponse : Type := {
  rev_rating : Q;
  rev_count : Z;
  rev_reviews : list Review
}.

(** [sum(r["rating"] for r in reviews)] *)
Definition sum_ratings (reviews : list Review) : Q :=
  fold_left (fun acc r => (acc + rating r)%Q) reviews 0%Q.

(** [today] is the value of [_now_iso()]. *)
Definition get_reviews (today : string) (course_id : string) : result ReviewsResponse :=
  let reviews :=
    [ {| learnerId := "u1"; rating := 4.5; reviewText := "Great pacing and examples!";
         createdAt := today |};
      {| learnerId := "u2"; rating := 4.8; reviewText := "Loved the hands-on approach.";
         createdAt := today |};
      {| learnerId := "u3"; rating := 4.2; reviewText := "Clear explanations.";
         createdAt := today |} ] in
  let n := Z.of_nat (List.length reviews) in
  avg <- (if n =? 0 then Raise ZeroDivisionError
          else Ok (Num.round2 (sum_ratings reviews / inject_Z n))) ;;
  Ok {| rev_rating := avg; rev_count := n; rev_reviews := reviews |}.

(** ** IEEE 754 binary64 evaluation of the float expressions

    The handlers compute three float expressions, each on constants:
    [min(100.0, round(1860 / 2000 * 100, 2))], [round(sum / 3, 2)] over the
    ratings 4.5, 4.8 and 4.2, and [int(1240 * 0.6)] on the fallback
    enrollment count.  They are evaluated here on kernel floats, which are
    binary64 numbers with round-to-nearest-even operations. *)

Module Binary64.

Set Warnings "-inexact-float".

(** The exact value of a finite float. *)
Definition to_Q (x : float) : option Q :=
  match Prim2SF x with
  | S754_zero _ => Some 0%Q
  | S754_finite neg m e =>
      let v := (inject_Z (Zpos m) * Qpower 2 e)%Q in
      Some (if neg then (- v)%Q else v)
  | S754_infinity _ => None
  | S754_nan => None
  end.

(** [float(n)] for an [int] below 2^53 in magnitude (exact). *)
Definition of_Z (n : Z) : float :=
  if n <? 0
  then PrimFloat.opp (PrimFloat.of_uint63 (Uint63.of_Z (- n)))
  else PrimFloat.of_uint63 (Uint63.of_Z n).

(** [round(x, 2)] on a float: the exact value is rounded to two decimals,
    ties to even, and the decimal result [n / 100] is converted back to the
    nearest float; for [n] below 2^53 that is the correctly rounded quotient
    of [n] by [100.0]. *)
Definition round2 (x : float) : float :=
  match to_Q x with
  | Some q => PrimFloat.div (of_Z (Num.round_half_even (q * 100))) (of_Z 100)
  | None => x
  end.

Definition min (a b : float) : float :=
  if PrimFloat.ltb b a then b else a.

(** [int(x)] *)
Definition trunc (x : float) : option Z :=
  option_map Num.trunc (to_Q x).

(** [min(100.0, round(points / next_threshold * 100, 2))] at the values the
    progress handler reaches: [points = 1860], [next_threshold = 2000]. *)
Definition progress_1860 : float :=
  min 100%float
      (round2 (PrimFloat.mul (PrimFloat.div (of_Z 1860) (of_Z 2000)) (of_Z 100))).

(** [round(sum(r["rating"] for r in reviews) / len(reviews), 2)] *)
Definition reviews_average : float :=
  let ratings := [4.5; 4.8; 4.2]%float in
  let total := fold_left PrimFloat.add ratings (of_Z 0) in
  round2 (PrimFloat.div total (of_Z (Z.of_nat (List.length ratings)))).

(** [int(total_enrollments * 0.6)] at the fallback count 1240 *)
Definition active_learners_1240 : option Z :=
  trunc (PrimFloat.mul (of_Z 1240) 0.6%float).

End Binary64.

(** ** The read handlers that call the store *)

Inductive store_reader : Type :=
| DashboardSummary
| Courses
| Course (course_id : string)
| TestDatabase.

Inductive payload : Type :=
| SummaryPayload (r : SummaryResponse)
| CoursesPayload (items : list CourseItem)
| CoursePayload (doc : document)
| TestPayload (r : TestResponse).

(** What a request brings besides the store: the clock, the bearer
    credentials and the process environment. *)
Record context : Type := {
  clock : Z;
  creds : option HTTPAuthorizationCredentials;
  environ : string -> option string
}.

Definition serve (ctx : context) (ep : store_reader) (db : database)
  : result payload :=
  match ep with
  | DashboardSummary =>
      fmap SummaryPayload (dashboard_summary_route (clock ctx) db (creds ctx))
  | Courses => fmap CoursesPayload (get_courses db)
  | Course course_id => fmap CoursePayload (get_course db course_id)
  | TestDatabase => fmap TestPayload (test_database (environ ctx) db)
  end.

(** A store call that raised or came back empty. *)
Definition no_data {A : Type} (empty : A -> bool) (r : result A) : Prop :=
  match r with
  | Raise _ => True
  | Ok a => empty a = true
  end.

Definition is_nil {A : Type} (l : list A) : bool :=
  match l with
  | [] => true
  | _ :: _ => false
  end.

Definition doc_falsy (d : option document) : bool :=
  match d with
  | Some (_ :: _) => false
  | _ => true
  end.

(** The store is unavailable, or every call on it raises or returns an
    empty result. *)
Definition degraded (db : database) : Prop :=
  match db with
  | None => True
  | Some st =>
      (forall c f, no_data (Z.eqb 0) (count_documents st c f)) /\
      (forall c, no_data is_nil (get_documents st c)) /\
      (forall c f, no_data doc_falsy (find_one st c f)) /\
      no_data is_nil (list_collection_names st)
  end.

(** The store cannot be reached: there is no handle, or testing the handle
    or running the course query raises. *)
Definition unreachable (db : database) : Prop :=
  match db with
  | None => True
  | Some st =>
      (exists e, truth st = Raise e) \/
      (exists e, get_documents st "course" = Raise e)
  end.

(** The outcome of one store call [op] as a handler makes it, behind the
    test [if db]: it ends without data when there is no handle, when the
    test of the handle raises or is false, or when the call itself raises or
    returns an empty result. *)
Definition call_without_data {A : Type} (empty : A -> bool) (db : database)
  (op : store -> result A) : Prop :=
  match db with
  | None => True
  | Some st =>
      match truth st with
      | Ok true => no_data empty (op st)
      | _ => True
      end
  end.

Definition count_without_data (db : database) (collection : string) : Prop :=
  call_without_data (Z.eqb 0) db (fun st => count_documents st collection []).

(** Every store call that the read handler [ep] makes ends without data.
    [GET /test] calls [list_collection_names] without testing the handle. *)
Definition without_data (ep : store_reader) (db : database) : Prop :=
  match ep with
  | DashboardSummary =>
      count_without_data db "course" /\ count_without_data db "enrollment"
  | Courses =>
      call_without_data is_nil db (fun st => get_documents st "course")
  | Course course_id =>
      call_without_data doc_falsy db
        (fun st => find_one st "course" [("_id", VStr course_id)])
  | TestDatabase =>
      match db with
      | None => True
      | Some st => no_data is_nil (list_collection_names st)
      end
  end.

(** The payload a data handler falls back to. *)
Definition fallback (ep : store_reader) : option payload :=
  match ep with
  | DashboardSummary =>
      Some (SummaryPayload
              {| totalCourses := 8; totalEnrollments := 1240; activeLearners := 744 |})
  | Courses => Some (CoursesPayload demo_courses)
  | Course course_id =>
      Some (CoursePayload
              [("id", VStr course_id); ("title", VStr "Course");
               ("category", VStr "General")])
  | TestDatabase => None
  end.

(** A connected store on which every call raises [StoreError msg]. *)
Definition failing_store (msg : string) : store :=
  {| truth := Ok true;
     count_documents := fun _ _ => Raise (StoreError msg);
     get_documents := fun _ => Raise (StoreError msg);
     find_one := fun _ _ => Raise (StoreError msg);
     list_collection_names := Raise (StoreError msg) |}.

(** A connected store without any document. *)
Definition empty_store : store :=
  {| truth := Ok true;
     count_documents := fun _ _ => Ok 0;
     get_documents := fun _ => Ok [];
     find_one := fun _ _ => Ok None;
     list_collection_names := Ok [] |}.

(** [mean(xs)] *)
Definition mean (xs : list Q) : Q :=
  (fold_left Qplus xs 0 / inject_Z (Z.of_nat (List.length xs)))%Q.

(** ** Synthetic series *)

(** [range(n)] *)
Definition range (n : nat) : list Z := map Z.of_nat (seq 0 n).

Record ActivityItem : Type := {
  act_date : string;
  act_enrollments : Z
}.

Section Calendar.

(** A day is its ordinal number; [strftime d] is the ["%Y-%m-%d"] text of
    day [d].  [today - timedelta(days=k)] is the day [today - k]. *)
Variable strftime : Z -> string.

(** The body of the [for i in range(14)] loop of [dashboard_activity]. *)
Definition activity_item (today i : Z) : ActivityItem :=
  let d := today - (13 - i) in
  {| act_date := strftime d; act_enrollments := 80 + (i * 7) mod 40 |}.

Fixpoint activity_loop (today : Z) (indices : list Z) (data : list ActivityItem)
  : list ActivityItem :=
  match indices with
  | [] => data
  | i :: rest => activity_loop today rest (data ++ [activity_item today i])
  end.

Definition dashboard_activity (today : Z) (user : option string) : list ActivityItem :=
  let data := [] in
  activity_loop today (range 14) data.

End Calendar.

Inductive Period : Type := daily | weekly | monthly.

Record SeriesPoint : Type := {
  sp_label : string;
  sp_value : Z
}.

(** The list comprehension of [get_enrollments] for a given [length]. *)
Definition enrollment_series (length : nat) : list SeriesPoint :=
  map (fun i => {| sp_label := Str.of_int (i + 1); sp_value := 50 + (i * 13) mod 60 |})
      (range length).

Definition get_enrollments (course_id : string) (period : Period) : list SeriesPoint :=
  let length :=
    match period with
    | daily => 14%nat
    | _ => match period with weekly => 12%nat | _ => 6%nat end
    end in
  enrollment_series length.

(** [max(a, b)] on floats: the second argument only when it is strictly
    greater. *)
Definition float_max (a b : Q) : Q := if Qle_bool b a then a else b.

Record DropOffPoint : Type := {
  dp_t : Z;
  dp_v : Q
}.

(** [max(0.0, 100.0 - (t * 1.2 + (5 if t > 60 else 0)))] *)
Definition dropoff_value (t : Z) : Q :=
  float_max 0 (100 - (inject_Z t * 1.2 + (if t >? 60 then 5 else 0)))%Q.

(** [range(0, 101, 5)] *)
Definition dropoff_times : list Z := map (fun k => 5 * k) (range 21).

Definition get_dropoff (course_id : string) : list DropOffPoint :=
  map (fun t => {| dp_t := t; dp_v := dropoff_value t |}) dropoff_times.

(** ** Portfolio and resume *)







Set Warnings "-register-all".






(** ** Statement vocabulary for the store handlers *)

(** The stub [get_course] answers with when it has no stored document. *)
Definition course_stub (course_id : string) : document :=
  [("id", VStr course_id); ("title", VStr "Course"); ("category", VStr "General")].

(** What the store counts for a collection, 0 when it is not usable. *)
Definition store_count (db : database) (collection : string) : Z :=
  match db with
  | None => 0
  | Some st =>
      match truth st with
      | Ok true =>
          match count_documents st collection [] with
          | Ok n => n
          | Raise _ => 0
          end
      | _ => 0
      end
  end.

(** [sep.join(fields)] *)
Fixpoint join (sep : string) (fields : list string) : string :=
  match fields with
  | [] => ""
  | [f] => f
  | f :: rest => f ++ sep ++ join sep rest
  end.

(** A field that can sit in a token: no separator inside and no colon at
    its end. *)
Definition clean_field (s : string) : Prop :=
  Str.contains "::" s = false /\ Str.ends_with ":" s = false.

(** A connected store that holds the given course documents. *)
Definition course_store (docs : list document) : store :=
  {| truth := Ok true;
     count_documents := fun _ _ => Ok (Z.of_nat (List.length docs));
     get_documents := fun _ => Ok docs;
     find_one := fun _ _ => Ok (hd_error docs);
     list_collection_names := Ok ["course"] |}.

Set Warnings "-inexact-float".

(** The drop-off value in binary64: [t] is converted to a float, the
    products and sums are rounded to nearest. *)
Definition dropoff_value_b64 (t : Z) : float :=
  let x :=
    PrimFloat.sub (Binary64.of_Z 100)
      (PrimFloat.add (PrimFloat.mul (Binary64.of_Z t) 1.2%float)
                     (Binary64.of_Z (if t >? 60 then 5 else 0))) in
  if PrimFloat.ltb 0%float x then x else 0%float.

(** The default of [sys.get_int_max_str_digits()]: [int()] refuses a
    literal with more digits; interpreters without the limit read every
    literal. *)
Definition max_str_digits : nat := 4300.

(** A character of the ASCII range. *)
Definition ascii_char (c : ascii) : bool := (nat_of_ascii c <? 128)%nat.

(** ** Character classes used in the statements *)

Fixpoint all_chars (P : ascii -> bool) (s : string) : bool :=
  match s with
  | EmptyString => true
  | String c s' => P c && all_chars P s'
  end.

Definition not_colon (c : ascii) : bool := negb (Ascii.eqb c ":").

Definition digit_or_minus (c : ascii) : bool :=
  Str.is_digit c || Ascii.eqb c "-".

(** The string starts with the separator ["::"]. *)
Definition starts_with_sep (s : string) : bool :=
  match s with
  | String c (String d _) => Ascii.eqb c ":" && Ascii.eqb d ":"
  | _ => false
  end.

(** The credentials of a request with header [Authorization: Bearer token]. *)
Definition bearer (token : string) : HTTPAuthorizationCredentials :=
  {| scheme := "Bearer"; credentials := token |}.

(** * Properties *)

(** ** Strings *)

Section StringFacts.

Lemma append_empty_r (s : string) : s ++ "" = s.
Proof. induction s as [|c s IH]; simpl; [reflexivity | now rewrite IH]. Qed.

Lemma append_assoc (a b c : string) : (a ++ b) ++ c = a ++ (b ++ c).
Proof. induction a as [|x a IH]; simpl; [reflexivity | now rewrite IH]. Qed.

Lemma all_chars_weaken (P Q : ascii -> bool) (s : string) :
  (forall c, P c = true -> Q c = true) ->
  all_chars P s = true -> all_chars Q s = true.
Proof.
  intros HPQ. induction s as [|c s IH]; simpl; [reflexivity|].
  intros H. apply andb_true_iff in H as [Hc Hs].
  apply andb_true_iff. split; auto.
Qed.

Lemma all_chars_app (P : ascii -> bool) (a b : string) :
  all_chars P (a ++ b) = all_chars P a && all_chars P b.
Proof.
  induction a as [|c a IH]; simpl; [reflexivity|].
  now rewrite IH, andb_assoc.
Qed.

Lemma digit_not_colon (c : ascii) : digit_or_minus c = true -> not_colon c = true.
Proof.
  unfold digit_or_minus, not_colon. intros H.
  destruct (Ascii.eqb_spec c ":") as [->|]; [discriminate H | reflexivity].
Qed.

Lemma digit_not_space (c : ascii) :
  digit_or_minus c = true -> Str.is_space c = false.
Proof.
  unfold digit_or_minus, Str.is_digit, Str.is_space. intros H.
  apply orb_true_iff in H as [H|H].
  - apply andb_true_iff in H as [H1 H2].
    apply Nat.leb_le in H1. apply Nat.leb_le in H2.
    apply orb_false_iff. split.
    + apply andb_false_iff. right. apply Nat.leb_gt. lia.
    + apply Nat.eqb_neq. lia.
  - apply Ascii.eqb_eq in H. subst c. reflexivity.
Qed.

Lemma prefix_sep (s : string) : prefix "::" s = starts_with_sep s.
Proof.
  destruct s as [|c [|d s]]; cbn [prefix starts_with_sep].
  - reflexivity.
  - destruct (Ascii.ascii_dec ":" c); reflexivity.
  - destruct (Ascii.ascii_dec ":" c) as [<-|Hc].
    + destruct (Ascii.ascii_dec ":" d) as [<-|Hd]; [now destruct s|].
      cbn. symmetry. apply Ascii.eqb_neq. congruence.
    + symmetry. apply andb_false_iff. left. apply Ascii.eqb_neq. congruence.
Qed.

Lemma contains_cons (c : ascii) (s : string) :
  Str.contains "::" (String c s) = starts_with_sep (String c s) || Str.contains "::" s.
Proof. cbn [Str.contains]. now rewrite prefix_sep. Qed.

(** A string without a colon contains no separator and does not end in a
    colon. *)
Lemma no_colon_contains (s : string) :
  all_chars not_colon s = true -> Str.contains "::" s = false.
Proof.
  induction s as [|c s IH]; [reflexivity|].
  cbn [all_chars]. intros H. apply andb_true_iff in H as [Hc Hs].
  rewrite contains_cons, (IH Hs), orb_false_r.
  unfold not_colon in Hc. apply negb_true_iff in Hc.
  destruct s; cbn [starts_with_sep]; [reflexivity | now rewrite Hc].
Qed.

Lemma no_colon_ends_with (s : string) :
  all_chars not_colon s = true -> Str.ends_with ":" s = false.
Proof.
  induction s as [|c s IH]; [reflexivity|].
  cbn [all_chars Str.ends_with]. intros H. apply andb_true_iff in H as [Hc Hs].
  destruct s as [|d s]; [|exact (IH Hs)].
  unfold not_colon in Hc. now apply negb_true_iff in Hc.
Qed.

(** The two equations of the scan when the separator is ["::"]. *)
Lemma split_aux_sep (cur rest : string) :
  Str.split_aux "::" 0 cur ("::" ++ rest) = cur :: Str.split_aux "::" 0 "" rest.
Proof.
  change ("::" ++ rest) with (String ":" (String ":" rest)).
  cbn [Str.split_aux]. rewrite prefix_sep. reflexivity.
Qed.

Lemma split_aux_char (cur : string) (c : ascii) (s : string) :
  prefix "::" (String c s) = false ->
  Str.split_aux "::" 0 cur (String c s)
  = Str.split_aux "::" 0 (cur ++ String c "") s.
Proof. intros H. cbn [Str.split_aux]. now rewrite H. Qed.

(** A field that holds no separator and does not end in a colon is cut
    exactly at the separator that follows it. *)
Lemma split_aux_field (a : string) :
  forall cur rest,
    Str.contains "::" a = false ->
    Str.ends_with ":" a = false ->
    Str.split_aux "::" 0 cur (a ++ "::" ++ rest)
    = (cur ++ a) :: Str.split_aux "::" 0 "" rest.
Proof.
  induction a as [|c a IH]; intros cur rest Hc He.
  - rewrite append_empty_r. apply split_aux_sep.
  - change ((String c a) ++ "::" ++ rest) with (String c (a ++ "::" ++ rest)).
    rewrite contains_cons in Hc. apply orb_false_iff in Hc as [Hp Hc].
    rewrite split_aux_char.
    + rewrite IH; auto.
      * now rewrite append_assoc.
      * destruct a as [|d a]; [reflexivity | exact He].
    + rewrite prefix_sep. destruct a as [|d a].
      * cbn [Str.ends_with] in He. cbn. now rewrite He.
      * exact Hp.
Qed.

(** A string without a separator is a single field. *)
Lemma split_aux_last (s : string) :
  forall cur,
    Str.contains "::" s = false ->
    Str.split_aux "::" 0 cur s = [cur ++ s].
Proof.
  induction s as [|c s IH]; intros cur Hc.
  - now rewrite append_empty_r.
  - rewrite contains_cons in Hc. apply orb_false_iff in Hc as [Hp Hc].
    rewrite split_aux_char by (now rewrite prefix_sep).
    rewrite IH by exact Hc. now rewrite append_assoc.
Qed.

(** *** Decimal printing and parsing *)

Lemma uint_digits (d : uint) :
  all_chars Str.is_digit (NilEmpty.string_of_uint d) = true.
Proof. induction d; cbn [NilEmpty.string_of_uint all_chars]; auto. Qed.

Lemma uint_nonempty (d : uint) :
  d <> Nil -> exists c s, NilEmpty.string_of_uint d = String c s.
Proof. destruct d; [congruence | cbn; eauto ..]. Qed.

Lemma nilzero_string (d : uint) :
  d <> Nil -> NilZero.string_of_uint d = NilEmpty.string_of_uint d.
Proof. destruct d; [congruence | reflexivity ..]. Qed.

Lemma digit_is_digit_or_minus (c : ascii) :
  Str.is_digit c = true -> digit_or_minus c = true.
Proof. unfold digit_or_minus. now intros ->. Qed.

Lemma of_int_chars (n : Z) : all_chars digit_or_minus (Str.of_int n) = true.
Proof.
  unfold Str.of_int.
  destruct n as [|p|p]; [reflexivity | |]; cbn [Z.to_int NilZero.string_of_int];
    rewrite nilzero_string by apply DecimalPos.Unsigned.to_uint_nonnil;
    cbn [all_chars];
    try (apply andb_true_iff; split; [reflexivity|]);
    apply (all_chars_weaken Str.is_digit); auto using digit_is_digit_or_minus, uint_digits.
Qed.

Lemma of_int_no_colon (n : Z) : all_chars not_colon (Str.of_int n) = true.
Proof.
  apply (all_chars_weaken digit_or_minus); auto using digit_not_colon, of_int_chars.
Qed.

Lemma rstrip_no_space (s : string) :
  all_chars (fun c => negb (Str.is_space c)) s = true -> Str.rstrip s = s.
Proof.
  induction s as [|c s IH]; [reflexivity|].
  cbn [all_chars Str.rstrip]. intros H. apply andb_true_iff in H as [Hc Hs].
  rewrite (IH Hs). apply negb_true_iff in Hc. rewrite Hc. now destruct s.
Qed.

Lemma strip_no_space (s : string) :
  all_chars digit_or_minus s = true -> Str.strip s = s.
Proof.
  intros H. unfold Str.strip.
  assert (Hl : Str.lstrip s = s).
  { destruct s as [|c s]; [reflexivity|]. cbn [all_chars] in H.
    apply andb_true_iff in H as [Hc _]. cbn [Str.lstrip].
    now rewrite (digit_not_space c Hc). }
  rewrite Hl. apply rstrip_no_space.
  apply (all_chars_weaken digit_or_minus); [|exact H].
  intros c Hc. now rewrite (digit_not_space c Hc).
Qed.

Lemma literal_digits_after (s : string) :
  all_chars Str.is_digit s = true -> Str.literal_digits true s = Some s.
Proof.
  induction s as [|c s IH]; [reflexivity|].
  cbn [all_chars Str.literal_digits]. intros H. apply andb_true_iff in H as [Hc Hs].
  now rewrite Hc, (IH Hs).
Qed.

Lemma magnitude_uint (d : uint) :
  d <> Nil -> Str.magnitude (NilEmpty.string_of_uint d) = Some (Z.of_uint d).
Proof.
  intros Hd. unfold Str.magnitude.
  destruct (uint_nonempty d Hd) as (c & s & E).
  pose proof (uint_digits d) as Hdig. rewrite E in Hdig.
  cbn [all_chars] in Hdig. apply andb_true_iff in Hdig as [Hc Hs].
  assert (L : Str.literal_digits false (NilEmpty.string_of_uint d)
              = Some (NilEmpty.string_of_uint d)).
  { rewrite E. cbn [Str.literal_digits]. now rewrite Hc, (literal_digits_after s Hs). }
  rewrite L, NilEmpty.usu. reflexivity.
Qed.

Lemma digit_not_sign (c : ascii) :
  Str.is_digit c = true -> Ascii.eqb c "-" = false /\ Ascii.eqb c "+" = false.
Proof.
  intros H. split.
  - destruct (Ascii.eqb_spec c "-") as [->|]; [discriminate H | reflexivity].
  - destruct (Ascii.eqb_spec c "+") as [->|]; [discriminate H | reflexivity].
Qed.

(** [int(str(n)) == n] *)
Lemma to_int_of_int (n : Z) : Str.to_int (Str.of_int n) = Ok n.
Proof.
  unfold Str.to_int. rewrite (strip_no_space _ (of_int_chars n)).
  unfold Str.of_int.
  destruct n as [|p|p]; [reflexivity | |]; cbn [Z.to_int NilZero.string_of_int];
    rewrite nilzero_string by apply DecimalPos.Unsigned.to_uint_nonnil;
    pose proof (DecimalPos.Unsigned.to_uint_nonnil p) as Hd;
    pose proof (magnitude_uint _ Hd) as Hm;
    assert (Hv : Z.of_uint (Pos.to_uint p) = Z.pos p)
      by (unfold Z.of_uint; now rewrite DecimalPos.Unsigned.of_to).
  - destruct (uint_nonempty _ Hd) as (c & s & E).
    pose proof (uint_digits (Pos.to_uint p)) as Hdig.
    rewrite E in Hdig, Hm |- *. cbn [all_chars] in Hdig.
    apply andb_true_iff in Hdig as [Hc _].
    destruct (digit_not_sign c Hc) as [-> ->].
    now rewrite Hm, Hv.
  - change (Ascii.eqb "-" "-") with true. cbv iota.
    now rewrite Hm, Hv.
Qed.

End StringFacts.

(** ** Authentication *)

Section TokenFacts.

Lemma secret_no_colon : all_chars not_colon FAKE_SECRET = true.
Proof. reflexivity. Qed.

Lemma token_shape (exp : Z) (e : string) :
  create_fake_token exp e
  = "token" ++ "::" ++ e ++ "::" ++ Str.of_int exp ++ "::" ++ FAKE_SECRET.
Proof. reflexivity. Qed.

(** The fields of an issued token when the email holds no separator and
    does not end in a colon. *)
Lemma token_fields (exp : Z) (e : string) :
  Str.contains "::" e = false ->
  Str.ends_with ":" e = false ->
  Str.split "::" (create_fake_token exp e)
  = Ok ["token"; e; Str.of_int exp; FAKE_SECRET].
Proof.
  intros Hc He. rewrite token_shape. unfold Str.split.
  rewrite (split_aux_field "token") by reflexivity.
  rewrite (split_aux_field e) by assumption.
  rewrite (split_aux_field (Str.of_int exp))
    by auto using no_colon_contains, no_colon_ends_with, of_int_no_colon.
  rewrite split_aux_last by (apply no_colon_contains, secret_no_colon).
  reflexivity.
Qed.



Lemma of_int_first (n : Z) :
  exists c s, Str.of_int n = String c s /\ not_colon c = true.
Proof.
  pose proof (of_int_no_colon n) as H.
  assert (Hne : Str.of_int n <> "").
  { unfold Str.of_int. destruct n as [|p|p]; [discriminate | | discriminate].
    cbn [Z.to_int NilZero.string_of_int].
    rewrite nilzero_string by apply DecimalPos.Unsigned.to_uint_nonnil.
    destruct (uint_nonempty _ (DecimalPos.Unsigned.to_uint_nonnil p))
      as (c & s & ->). discriminate. }
  destruct (Str.of_int n) as [|c s]; [congruence|].
  cbn [all_chars] in H. apply andb_true_iff in H as [Hc _]. eauto.
Qed.


Lemma truthy_nonempty (s : string) : Str.truthy s = true <-> s <> "".
Proof. destruct s; cbn; split; congruence. Qed.

Lemma login_outcome (exp : Z) (data : AuthRequest) :
  (email data = "" \/ password data = "") /\
  login exp data = Raise (HTTPException 400 "Email and password required")
  \/
  (email data <> "" /\ password data <> "") /\
  login exp data
  = Ok {| access_token := create_fake_token exp (email data);
          token_type := "bearer"; expires_in := 3600 |}.
Proof.
  unfold login. destruct data as [e p]; cbn [email password].
  destruct e as [|c e]; [left; auto|].
  destruct p as [|d p]; [left; auto|].
  right. repeat split; discriminate.
Qed.

End TokenFacts.

Section CurrentUser.

Lemma get_current_user_cases (now : Z) (creds : option HTTPAuthorizationCredentials) :
  get_current_user now creds = Ok None \/
  exists user, get_current_user now creds = Ok (Some user).
Proof.
  destruct creds as [c|]; [|now left].
  unfold get_current_user, try_except.
  destruct (check_token now (credentials c)) as [[user|]|e]; eauto.
Qed.

Lemma safe_count_ok (db : database) (collection : string) (f : option document) :
  exists n, _safe_count db collection f = Ok n.
Proof.
  unfold _safe_count, try_except.
  match goal with |- exists n, match ?body with _ => _ end = _ =>
    destruct body; eauto end.
Qed.

Lemma dashboard_summary_ok (db : database) (user : option string) :
  succeeds (dashboard_summary db user).
Proof.
  unfold dashboard_summary, succeeds.
  destruct (safe_count_ok db "course" None) as [c ->].
  destruct (safe_count_ok db "enrollment" None) as [e ->].
  cbn [bind]. eauto.
Qed.

End CurrentUser.

(** C5.  A token whose expiry field (the third field of the split) reads
    as an integer earlier than the clock is rejected by [get_current_user]:
    the result is the anonymous user [None], whatever the secret field
    and the other fields are. *)
Theorem expired_token_rejected
  (now : Z) (c : HTTPAuthorizationCredentials)
  (parts : list string) (exp : string) (e : Z) :
  Str.split "::" (credentials c) = Ok parts ->
  nth_error parts 2 = Some exp ->
  Str.to_int exp = Ok e ->
  e < now ->
  get_current_user now (Some c) = Ok None.
Proof.
  intros Hsplit Hnth Hexp Hlt.
  unfold get_current_user, check_token. rewrite Hsplit. cbn [bind].
  destruct parts as [|tag [|user [|exp' [|secret [|extra parts]]]]];
    try reflexivity.
  cbn [nth_error] in Hnth. injection Hnth as ->.
  destruct (String.eqb secret FAKE_SECRET); cbn [negb]; [|reflexivity].
  rewrite Hexp. cbn [bind].
  apply Z.ltb_lt in Hlt. now rewrite Hlt.
Qed.

Lemma expired_token_rejected_witness :
  get_current_user 200 (Some (bearer "token::a@b.c::100::creator-insight-demo-secret"))
  = Ok None /\
  get_current_user 200 (Some (bearer "token::a@b.c::100::some-other-secret"))
  = Ok None.
Proof.
  split.
  - apply (expired_token_rejected 200 _
             ["token"; "a@b.c"; "100"; "creator-insight-demo-secret"] "100" 100);
      [reflexivity | reflexivity | reflexivity | lia].
  - apply (expired_token_rejected 200 _
             ["token"; "a@b.c"; "100"; "some-other-secret"] "100" 100);
      [reflexivity | reflexivity | reflexivity | lia].
Defined.

(** C10.  [get_current_user] never raises: on every clock value and every
    credentials value (absent or carrying any string) it returns [None] or an
    email.  Hence the route [GET /dashboard/summary], which takes the user as
    an optional dependency, answers as it does for an anonymous request and
    never fails. *)
Theorem current_user_never_raises
  (now : Z) (creds : option HTTPAuthorizationCredentials) (db : database) :
  (get_current_user now creds = Ok None \/
   exists user, get_current_user now creds = Ok (Some user)) /\
  dashboard_summary_route now db creds = dashboard_summary db None /\
  succeeds (dashboard_summary_route now db creds).
Proof.
  pose proof (get_current_user_cases now creds) as H.
  split; [exact H|].
  assert (E : dashboard_summary_route now db creds = dashboard_summary db None).
  { unfold dashboard_summary_route.
    destruct H as [-> | [user ->]]; reflexivity. }
  split; [exact E|]. rewrite E. apply dashboard_summary_ok.
Qed.

(** The malformed inputs named in the claim, one by one. *)
Example current_user_malformed :
  get_current_user 0 None = Ok None /\
  get_current_user 0 (Some (bearer "")) = Ok None /\
  get_current_user 0 (Some (bearer "a::b")) = Ok None /\
  get_current_user 0 (Some (bearer "token::me::99::wrong")) = Ok None /\
  get_current_user 0 (Some (bearer "token::me::soon::creator-insight-demo-secret"))
  = Ok None /\
  get_current_user 100 (Some (bearer "token::me::99::creator-insight-demo-secret"))
  = Ok None /\
  get_current_user 100 (Some (bearer "token::me::100::creator-insight-demo-secret"))
  = Ok (Some "me").
Proof. repeat split. Qed.




(** C9, as stated, fails on an email that ends in a single colon: it holds
    no ["::"], yet in the token its last colon joins the separator, the
    email field comes back as ["a"] and the expiry field as [":3600"], which
    is not an integer, so the user is anonymous. *)
Lemma round_trip_trailing_colon :
  Str.contains "::" "a:" = false /\
  Str.split "::" (create_fake_token 3600 "a:")
  = Ok ["token"; "a"; ":3600"; "creator-insight-demo-secret"] /\
  get_current_user 0 (Some (bearer (create_fake_token 3600 "a:"))) = Ok None /\
  ~ (forall exp now' e,
       Str.contains "::" e = false -> now' <= exp ->
       get_current_user now' (Some (bearer (create_fake_token exp e))) = Ok (Some e)).
Proof.
  split; [reflexivity|]. split; [reflexivity|]. split; [reflexivity|].
  intros H. specialize (H 3600 0 "a:" eq_refl ltac:(lia)).
  discriminate H.
Qed.

(** C9 (amended).  For every email that neither contains ["::"] nor ends
    in [":"], the token issued with the one-hour expiry [exp] is accepted
    at every clock reading [now'] up to that expiry, and the authenticated
    user is exactly that email. *)
Theorem token_round_trip (exp now' : Z) (e : string) :
  Str.contains "::" e = false ->
  Str.ends_with ":" e = false ->
  now' <= exp ->
  get_current_user now' (Some (bearer (create_fake_token exp e))) = Ok (Some e).
Proof.
  intros Hc He Hle.
  unfold get_current_user, check_token. cbn [credentials bearer].
  rewrite (token_fields exp e Hc He). cbn [bind].
  rewrite String.eqb_refl. cbn [negb].
  rewrite to_int_of_int. cbn [bind].
  destruct (Z.ltb_spec exp now') as [Hlt|_]; [lia | reflexivity].
Qed.

Lemma token_round_trip_witness :
  get_current_user 1700003600
    (Some (bearer (create_fake_token 1700003600 "ada@example.org")))
  = Ok (Some "ada@example.org").
Proof.
  apply (token_round_trip 1700003600 1700003600 "ada@example.org");
    [reflexivity | reflexivity | lia].
Defined.

(** ** Achievements *)

Section Levels.

Lemma creator_level_cases (p : Z) :
  level (creator_level_for p)
  = if p <? 2000 then "Bronze"
    else if p <? 5000 then "Silver"
    else if p <? 10000 then "Gold"
    else "Platinum".
Proof.
  unfold creator_level_for. cbn [level]. rewrite !Z.geb_leb.
  destruct (Z.ltb_spec p 2000), (Z.ltb_spec p 5000), (Z.ltb_spec p 10000),
    (Z.leb_spec 2000 p), (Z.leb_spec 5000 p), (Z.leb_spec 10000 p);
    try lia; reflexivity.
Qed.

Lemma in_thresholds (lvl : string) (th : Z) :
  In (lvl, th) thresholds ->
  (lvl, th) = ("Bronze", 0) \/ (lvl, th) = ("Silver", 2000) \/
  (lvl, th) = ("Gold", 5000) \/ (lvl, th) = ("Platinum", 10000).
Proof.
  cbn [thresholds In]. intros [H|[H|[H|[H|[]]]]]; symmetry in H; auto.
Qed.

(** Every non-negative total has a highest threshold it meets. *)
Lemma highest_threshold_exists (p : Z) :
  0 <= p ->
  exists lvl th,
    In (lvl, th) thresholds /\ th <= p /\
    forall lvl' th', In (lvl', th') thresholds -> th' <= p -> th' <= th.
Proof.
  intros Hp.
  assert (C : p < 2000 \/ 2000 <= p < 5000 \/ 5000 <= p < 10000 \/ 10000 <= p) by lia.
  destruct C as [C|[C|[C|C]]];
    [exists "Bronze", 0 | exists "Silver", 2000 | exists "Gold", 5000
     | exists "Platinum", 10000];
    (split; [cbn; tauto|]); (split; [lia|]);
    intros lvl' th' Hin Hle;
    destruct (in_thresholds _ _ Hin) as [E|[E|[E|E]]]; injection E as _ ->; lia.
Qed.

(** Below every threshold the level is still the initial one. *)
Lemma level_negative (p : Z) : p < 0 -> level (creator_level_for p) = "Bronze".
Proof.
  intros Hp. rewrite creator_level_cases.
  destruct (Z.ltb_spec p 2000); [reflexivity | lia].
Qed.

End Levels.

(** C1.  For every point total [p], the level computed by the level logic
    is the name of the highest threshold of [thresholds] (Bronze 0, Silver
    2000, Gold 5000, Platinum 10000) that is at most [p].  In particular
    1860 gives Bronze, 2000 gives Silver and 10000 gives Platinum, and the
    endpoint, whose point total is the constant 1860, answers Bronze. *)
Theorem creator_level_highest_threshold (p : Z) :
  (forall lvl th,
     In (lvl, th) thresholds ->
     th <= p ->
     (forall lvl' th', In (lvl', th') thresholds -> th' <= p -> th' <= th) ->
     level (creator_level_for p) = lvl) /\
  level (creator_level_for 1860) = "Bronze" /\
  level (creator_level_for 2000) = "Silver" /\
  level (creator_level_for 10000) = "Platinum" /\
  (forall creatorId, get_creator_level creatorId = {| level := "Bronze" |}).
Proof.
  split; [|repeat split].
  intros lvl th Hin Hle Hmax.
  rewrite creator_level_cases.
  assert (H0 := Hmax "Bronze" 0 ltac:(cbn; tauto)).
  assert (H1 := Hmax "Silver" 2000 ltac:(cbn; tauto)).
  assert (H2 := Hmax "Gold" 5000 ltac:(cbn; tauto)).
  assert (H3 := Hmax "Platinum" 10000 ltac:(cbn; tauto)).
  destruct (in_thresholds _ _ Hin) as [E|[E|[E|E]]]; injection E as -> ->;
    destruct (Z.ltb_spec p 2000), (Z.ltb_spec p 5000), (Z.ltb_spec p 10000);
    try reflexivity; lia.
Qed.

Lemma creator_level_highest_threshold_witness :
  level (creator_level_for 7300) = "Gold".
Proof.
  apply (proj1 (creator_level_highest_threshold 7300) "Gold" 5000).
  - cbn. tauto.
  - lia.
  - intros lvl' th' Hin Hle.
    cbn in Hin. destruct Hin as [H|[H|[H|[H|[]]]]]; injection H as _ <-; lia.
Defined.

Section Progress.

Lemma round_half_even_floor (x : Q) : Qfloor x <= Num.round_half_even x.
Proof.
  unfold Num.round_half_even.
  destruct (Qcompare (x - inject_Z (Qfloor x)) (1 # 2)); [|lia..].
  destruct (Z.even (Qfloor x)); lia.
Qed.

Lemma round2_lower (x : Q) (n : Z) :
  (inject_Z n <= x * 100)%Q -> (n # 100 <= Num.round2 x)%Q.
Proof.
  intros H. unfold Num.round2. rewrite Qred_correct.
  assert (Hn : n <= Num.round_half_even (x * 100)).
  { etransitivity; [|apply round_half_even_floor].
    rewrite <- (Qfloor_Z n). now apply Qfloor_resp_le. }
  unfold Qle. cbn [Qnum Qden]. nia.
Qed.

Lemma min_left (a b : Q) : (a <= b)%Q -> Num.min a b = a.
Proof. intros H. unfold Num.min. apply Qle_bool_iff in H. now rewrite H. Qed.

(** At or above the last threshold the loop leaves the initial
    [next_threshold = 2000], the ratio is at least 5 and [min] caps it. *)
Lemma progress_capped (p : Z) :
  10000 <= p ->
  Num.min 100 (Num.round2 (inject_Z p / inject_Z 2000 * 100)) = 100%Q.
Proof.
  intros Hp. apply min_left.
  apply Qle_trans with (10000 # 100)%Q; [unfold Qle; cbn; lia|].
  apply round2_lower.
  unfold Qle, Qdiv, Qmult, Qinv, inject_Z. cbn [Qnum Qden Z.mul Pos.mul]. lia.
Qed.

Lemma scan_thresholds_cases (p : Z) :
  scan_thresholds p thresholds ("Silver", 2000)
  = if p <? 0 then ("Bronze", 0)
    else if p <? 2000 then ("Silver", 2000)
    else if p <? 5000 then ("Gold", 5000)
    else if p <? 10000 then ("Platinum", 10000)
    else ("Silver", 2000).
Proof. reflexivity. Qed.

Lemma first_above_cases (p : Z) :
  first_above p thresholds
  = if p <? 0 then Some ("Bronze", 0)
    else if p <? 2000 then Some ("Silver", 2000)
    else if p <? 5000 then Some ("Gold", 5000)
    else if p <? 10000 then Some ("Platinum", 10000)
    else None.
Proof. reflexivity. Qed.

End Progress.

(** C2, as stated, fails on a negative total: the first threshold strictly
    greater than -1 is Bronze's 0, so the stated formula divides by zero,
    while the handler's guard on [next_threshold] answers 100. *)
Lemma progress_negative_total :
  first_above (-1) thresholds = Some ("Bronze", 0) /\
  spec_progress (-1) = Raise ZeroDivisionError /\
  progress_for (-1)
  = Ok {| points := -1; nextLevel := "Bronze"; progressPercent := 100 |} /\
  ~ (forall p, fmap progressPercent (progress_for p) = spec_progress p).
Proof.
  split; [reflexivity|]. split; [reflexivity|]. split; [reflexivity|].
  intros H. specialize (H (-1)). discriminate H.
Qed.

(** C2 (amended).  For every total [p >= 0] the progress is 100 when no
    threshold is strictly greater than [p], and otherwise
    [min(100, round(p / nextThreshold * 100, 2))] for the first threshold
    strictly greater than [p]; for [p < 0], where that threshold is 0, the
    progress is 100.  The next level is the name of that threshold, or
    Silver when there is none.  For the constant 1860 of the endpoint the
    next threshold is 2000, the progress 93.0 and the next level Silver. *)
Theorem progress_to_next_level (p : Z) :
  fmap progressPercent (progress_for p)
  = (if p <? 0 then Ok 100%Q else spec_progress p) /\
  fmap nextLevel (progress_for p)
  = Ok (match first_above p thresholds with
        | Some (lvl, _) => lvl
        | None => "Silver"
        end) /\
  first_above 1860 thresholds = Some ("Silver", 2000) /\
  (forall creatorId,
     get_progress_to_next_level creatorId
     = Ok {| points := 1860; nextLevel := "Silver"; progressPercent := 93 |}) /\
  Binary64.progress_1860 = 93%float.
Proof.
  split; [|split; [|repeat split]].
  - unfold progress_for, spec_progress.
    rewrite scan_thresholds_cases, first_above_cases.
    destruct (Z.ltb_spec p 0); [reflexivity|].
    destruct (Z.ltb_spec p 2000); [reflexivity|].
    destruct (Z.ltb_spec p 5000); [reflexivity|].
    destruct (Z.ltb_spec p 10000); [reflexivity|].
    cbn [Z.eqb negb Num.truediv bind fmap progressPercent].
    now rewrite progress_capped.
  - unfold progress_for.
    rewrite scan_thresholds_cases, first_above_cases.
    destruct (Z.ltb_spec p 0); [reflexivity|].
    destruct (Z.ltb_spec p 2000); [reflexivity|].
    destruct (Z.ltb_spec p 5000); [reflexivity|].
    destruct (Z.ltb_spec p 10000); reflexivity.
Qed.

(** ** Fallback on store faults *)

Section Fallback.

Lemma safe_count_degraded (db : database) (c : string) (f : option document) :
  degraded db -> _safe_count db c f = Ok 0.
Proof.
  unfold _safe_count. destruct db as [st|]; [|reflexivity].
  intros (Hcount & _). cbn [db_truth on_store].
  destruct (truth st) as [[|]|e]; try reflexivity.
  cbn [bind].
  match goal with |- context [count_documents st c ?g] =>
    specialize (Hcount c g); destruct (count_documents st c g) as [n|e] end;
    [|reflexivity].
  unfold no_data in Hcount. apply Z.eqb_eq in Hcount. now subst n.
Qed.

Lemma dashboard_summary_degraded (db : database) (user : option string) :
  degraded db ->
  dashboard_summary db user
  = Ok {| totalCourses := 8; totalEnrollments := 1240; activeLearners := 744 |}.
Proof.
  intros H. unfold dashboard_summary.
  rewrite !(safe_count_degraded db _ None H). reflexivity.
Qed.

Lemma get_courses_no_documents (db : database) :
  (forall st, db = Some st -> truth st = Ok true ->
              no_data is_nil (get_documents st "course")) ->
  get_courses db = Ok demo_courses.
Proof.
  unfold get_courses. destruct db as [st|]; [|reflexivity].
  intros H. specialize (H st eq_refl). cbn [db_truth on_store].
  destruct (truth st) as [[|]|e]; try reflexivity.
  specialize (H eq_refl).
  destruct (get_documents st "course") as [[|d docs]|e];
    [reflexivity | discriminate H | reflexivity].
Qed.

Lemma get_courses_degraded (db : database) :
  degraded db -> get_courses db = Ok demo_courses.
Proof.
  intros H. apply get_courses_no_documents.
  intros st -> _. destruct H as (_ & Hdocs & _). apply Hdocs.
Qed.

Lemma get_course_degraded (db : database) (course_id : string) :
  degraded db ->
  get_course db course_id
  = Ok [("id", VStr course_id); ("title", VStr "Course"); ("category", VStr "General")].
Proof.
  unfold get_course. destruct db as [st|]; [|reflexivity].
  intros (_ & _ & Hfind & _). cbn [db_truth on_store].
  destruct (truth st) as [[|]|e]; try reflexivity.
  cbn [bind].
  specialize (Hfind "course" [("_id", VStr course_id)]).
  destruct (find_one st "course" [("_id", VStr course_id)]) as [[[|kv d]|]|e];
    try reflexivity.
  discriminate Hfind.
Qed.

Lemma test_database_ok (env : string -> option string) (db : database) :
  succeeds (test_database env db).
Proof.
  unfold test_database, succeeds. destruct db as [st|]; [|eauto].
  destruct (list_collection_names st); eauto.
Qed.

End Fallback.

(** C3, as stated, fails on [GET /test]: this read handler answers with a
    payload that depends on the fault.  With no store the status is "Not
    Available"; with a store whose call raises, the response keeps
    "Connected" and carries the text of the exception; no single payload
    stands for both. *)
Lemma test_endpoint_reports_fault :
  degraded None /\ degraded (Some (failing_store "boom")) /\
  test_database (fun _ => None) None
  = Ok {| backend := "✅ Running";
          database_status := "❌ Not Available";
          database_url := "❌ Not Set";
          database_name := "❌ Not Set";
          connection_status := "Not Connected";
          collections := [] |} /\
  test_database (fun _ => None) (Some (failing_store "boom"))
  = Ok {| backend := "✅ Running";
          database_status := "⚠️  Connected but Error: boom";
          database_url := "❌ Not Set";
          database_name := "❌ Not Set";
          connection_status := "Connected";
          collections := [] |} /\
  ~ (forall ctx ep, exists fixed,
       forall db, degraded db -> serve ctx ep db = Ok fixed).
Proof.
  assert (D : degraded (Some (failing_store "boom"))) by (cbn; tauto).
  split; [exact I|]. split; [exact D|].
  split; [reflexivity|]. split; [reflexivity|].
  intros H.
  destruct (H {| clock := 0; creds := None; environ := fun _ => None |} TestDatabase)
    as [fixed Hfixed].
  pose proof (Hfixed None I) as H1.
  pose proof (Hfixed (Some (failing_store "boom")) D) as H2.
  rewrite <- H2 in H1. discriminate H1.
Qed.

Section HandlerCalls.

Lemma safe_count_without_data (db : database) (collection : string) :
  count_without_data db collection -> _safe_count db collection None = Ok 0.
Proof.
  unfold count_without_data, call_without_data, _safe_count.
  destruct db as [st|]; [|reflexivity]. cbn [db_truth on_store].
  destruct (truth st) as [[|]|e]; try reflexivity.
  cbn [bind]. intros H.
  destruct (count_documents st collection []) as [n|e]; [|reflexivity].
  unfold no_data in H. apply Z.eqb_eq in H. now subst n.
Qed.

Lemma get_course_without_data (db : database) (course_id : string) :
  without_data (Course course_id) db ->
  get_course db course_id
  = Ok [("id", VStr course_id); ("title", VStr "Course"); ("category", VStr "General")].
Proof.
  unfold without_data, call_without_data, get_course.
  destruct db as [st|]; [|reflexivity]. cbn [db_truth on_store].
  destruct (truth st) as [[|]|e]; try reflexivity.
  cbn [bind]. intros H.
  destruct (find_one st "course" [("_id", VStr course_id)]) as [[[|kv d]|]|e];
    try reflexivity.
  discriminate H.
Qed.

Lemma get_courses_without_data (db : database) :
  without_data Courses db -> get_courses db = Ok demo_courses.
Proof.
  intros H. apply get_courses_no_documents. intros st -> Ht.
  unfold without_data, call_without_data in H. now rewrite Ht in H.
Qed.

Lemma try_except_total {A : Type} (body : result A) (default : A) :
  exists a, try_except body (fun _ => Ok default) = Ok a.
Proof. destruct body; cbn; eauto. Qed.

Lemma get_courses_ok (db : database) : succeeds (get_courses db).
Proof.
  unfold get_courses, succeeds.
  match goal with |- context [try_except ?b _] =>
    destruct (try_except_total b []) as [items ->] end.
  cbn [bind]. eauto.
Qed.

Lemma get_course_ok (db : database) (course_id : string) :
  succeeds (get_course db course_id).
Proof.
  unfold get_course, succeeds.
  match goal with |- context [try_except ?b _] =>
    destruct (try_except_total b None) as [doc ->] end.
  cbn [bind]. eauto.
Qed.

Lemma degraded_without_data (ep : store_reader) (db : database) :
  degraded db -> without_data ep db.
Proof.
  destruct db as [st|]; [|destruct ep; cbn; auto].
  intros (Hc & Hd & Hf & Hl).
  destruct ep; unfold without_data, count_without_data, call_without_data;
    destruct (truth st) as [[|]|e]; auto.
Qed.

End HandlerCalls.

(** C3 (amended).  A read handler that calls the store never propagates a
    fault: it returns a successful response on every store.  Whenever the
    store calls of [GET /dashboard/summary], [GET /courses] or [GET
    /courses/{id}] end without data (no handle, the handle test or the call
    raising, or an empty result) the handler returns its fixed placeholder
    payload ([fallback]); in the summary each count that ends without data
    is replaced by its own placeholder number.  [GET /test] returns a status
    report instead: "Not Available" without a store, the first 80
    characters of the exception text when the call raises, and the first 10
    collection names otherwise. *)
Theorem read_handlers_degrade (ctx : context) (ep : store_reader) (db : database) :
  succeeds (serve ctx ep db) /\
  (without_data ep db ->
   forall fixed, fallback ep = Some fixed -> serve ctx ep db = Ok fixed) /\
  (ep = DashboardSummary ->
   exists r,
     serve ctx ep db = Ok (SummaryPayload r) /\
     (count_without_data db "course" -> totalCourses r = 8) /\
     (count_without_data db "enrollment" ->
      totalEnrollments r = 1240 /\ activeLearners r = 744)) /\
  (ep = TestDatabase ->
   exists r,
     serve ctx ep db = Ok (TestPayload r) /\
     (db = None ->
      database_status r = "❌ Not Available" /\
      connection_status r = "Not Connected") /\
     (forall st e,
        db = Some st -> list_collection_names st = Raise e ->
        database_status r
        = "⚠️  Connected but Error: " ++ substring 0 80 (exn_str e)) /\
     (forall st names,
        db = Some st -> list_collection_names st = Ok names ->
        database_status r = "✅ Connected & Working" /\
        collections r = firstn 10 names)).
Proof.
  assert (Hroute : dashboard_summary_route (clock ctx) db (creds ctx)
                   = dashboard_summary db None).
  { unfold dashboard_summary_route.
    destruct (get_current_user_cases (clock ctx) (creds ctx)) as [-> | [u ->]];
      reflexivity. }
  split; [|split; [|split]].
  - destruct ep; cbn [serve].
    + rewrite Hroute. destruct (dashboard_summary_ok db None) as [r ->].
      now exists (SummaryPayload r).
    + destruct (get_courses_ok db) as [items ->]. now exists (CoursesPayload items).
    + destruct (get_course_ok db course_id) as [doc ->]. now exists (CoursePayload doc).
    + destruct (test_database_ok (environ ctx) db) as [r ->]. now exists (TestPayload r).
  - intros Hw fixed Hf. destruct ep; cbn [fallback] in Hf; cbn [serve].
    + injection Hf as <-. rewrite Hroute. destruct Hw as [Hc He].
      unfold dashboard_summary.
      rewrite (safe_count_without_data db "course" Hc).
      rewrite (safe_count_without_data db "enrollment" He). reflexivity.
    + injection Hf as <-. now rewrite get_courses_without_data.
    + injection Hf as <-. now rewrite get_course_without_data.
    + discriminate Hf.
  - intros ->. cbn [serve]. rewrite Hroute. unfold dashboard_summary.
    destruct (safe_count_ok db "course" None) as [c Hc].
    destruct (safe_count_ok db "enrollment" None) as [e He].
    rewrite Hc, He. cbn [bind fmap]. eexists. split; [reflexivity|].
    cbn [totalCourses totalEnrollments activeLearners]. split.
    + intros H. rewrite (safe_count_without_data db "course" H) in Hc.
      injection Hc as <-. reflexivity.
    + intros H. rewrite (safe_count_without_data db "enrollment" H) in He.
      injection He as <-. split; reflexivity.
  - intros ->. cbn [serve]. unfold test_database.
    destruct db as [st|].
    + destruct (list_collection_names st) as [names|e] eqn:Hl.
      * eexists. split; [reflexivity|]. split; [discriminate|]. split.
        -- intros st' e' Hst He'. injection Hst as Hst. subst st'. congruence.
        -- intros st' names' Hst Hn. injection Hst as Hst. subst st'.
           rewrite Hl in Hn. injection Hn as <-. split; reflexivity.
      * eexists. split; [reflexivity|]. split; [discriminate|]. split.
        -- intros st' e' Hst He'. injection Hst as Hst. subst st'.
           rewrite Hl in He'. injection He' as <-. reflexivity.
        -- intros st' names' Hst Hn. injection Hst as Hst. subst st'. congruence.
    + eexists. split; [reflexivity|]. split; [split; reflexivity|].
      split; discriminate.
Qed.

Lemma read_handlers_degrade_witness :
  serve {| clock := 0; creds := None; environ := fun _ => None |}
        Courses (Some (course_store []))
  = Ok (CoursesPayload demo_courses) /\
  serve {| clock := 0; creds := None; environ := fun _ => None |}
        DashboardSummary (Some (failing_store "timeout"))
  = Ok (SummaryPayload
          {| totalCourses := 8; totalEnrollments := 1240; activeLearners := 744 |}).
Proof.
  split.
  - apply (proj1 (proj2 (read_handlers_degrade
                           {| clock := 0; creds := None; environ := fun _ => None |}
                           Courses (Some (course_store []))))).
    + exact eq_refl.
    + reflexivity.
  - apply (proj1 (proj2 (read_handlers_degrade
                           {| clock := 0; creds := None; environ := fun _ => None |}
                           DashboardSummary (Some (failing_store "timeout"))))).
    + split; exact I.
    + reflexivity.
Defined.

(** C6.  When the store is unreachable (no handle, or the handle test or the
    course query raises), [get_courses] returns exactly the three demo
    courses, whose ids are c1, c2, c3 in that order. *)
Theorem courses_unreachable_store (db : database) :
  unreachable db ->
  get_courses db = Ok demo_courses /\
  map id demo_courses = ["c1"; "c2"; "c3"] /\
  List.length demo_courses = 3%nat.
Proof.
  intros H. split; [|split; reflexivity].
  apply get_courses_no_documents. intros st -> Ht.
  destruct H as [[e He] | [e He]].
  - rewrite He in Ht. discriminate Ht.
  - now rewrite He.
Qed.

Lemma courses_unreachable_store_witness :
  get_courses None = Ok demo_courses /\
  get_courses (Some (failing_store "connection refused")) = Ok demo_courses.
Proof.
  split.
  - apply (courses_unreachable_store None). exact I.
  - apply (courses_unreachable_store (Some (failing_store "connection refused"))).
    right. now exists (StoreError "connection refused").
Defined.

(** ** Reviews *)

(** C7.  For every course id (and every date), [get_reviews] returns the
    average rating [round(mean([4.5, 4.8, 4.2]), 2)], which is 4.5, and a
    review count of 3.  The binary64 evaluation of the same expression is
    the float 4.5 as well. *)
Theorem reviews_average_rating (today course_id : string) :
  exists r,
    get_reviews today course_id = Ok r /\
    rev_rating r = Num.round2 (mean [4.5; 4.8; 4.2]%Q) /\
    (rev_rating r == 4.5)%Q /\
    rev_count r = 3 /\
    List.length (rev_reviews r) = 3%nat /\
    map rating (rev_reviews r) = [4.5; 4.8; 4.2]%Q /\
    Binary64.reviews_average = 4.5%float.
Proof.
  eexists. split; [reflexivity|]. repeat split.
Qed.

(** ** Achievement update *)

(** C8.  [update_achievements] leaves the persistent state as it found it,
    whatever the state and the request body are, and its response echoes
    the [creatorId] and the [pointsDelta] of the body. *)
Theorem update_achievements_pure
  (W : Type) (w : W) (body : UpdateAchievementRequest) :
  snd (update_achievements body w) = w /\
  fst (update_achievements body w)
  = Ok {| upd_status := "ok";
          upd_creatorId := creatorId body;
          upd_pointsAdded := pointsDelta body |}.
Proof. split; reflexivity. Qed.

(** With the store as the persistent state. *)
Example update_achievements_store (db : database) :
  update_achievements {| creatorId := "cr-7"; pointsDelta := -250 |} db
  = (Ok {| upd_status := "ok"; upd_creatorId := "cr-7"; upd_pointsAdded := -250 |},
     db).
Proof. reflexivity. Qed.

(** ** Binary64 checks *)

Set Warnings "-inexact-float".

(** The three binary64 ratings add up to 13.5 without rounding error, and
    the fallback number of active learners is 744 in binary64 as in the
    rational reading. *)
Example binary64_constants :
  option_map (Qeq_bool 13.5)
    (Binary64.to_Q (fold_left PrimFloat.add [4.5; 4.8; 4.2]%float 0%float))
  = Some true /\
  Binary64.active_learners_1240 = Some 744 /\
  Num.trunc (inject_Z 1240 * 0.6) = 744.
Proof. repeat split. Qed.

(** ** Checks of the string primitives on concrete inputs *)

Example split_plain :
  Str.split "::" "a::b::c" = Ok ["a"; "b"; "c"].
Proof. reflexivity. Qed.

Example split_trailing :
  Str.split "::" "a::" = Ok ["a"; ""].
Proof. reflexivity. Qed.

Example split_three_colons :
  Str.split "::" "a:::b" = Ok ["a"; ":b"].
Proof. reflexivity. Qed.

Example split_no_separator :
  Str.split "::" "" = Ok [""].
Proof. reflexivity. Qed.

Example to_int_examples :
  Str.to_int " 12 " = Ok 12 /\ Str.to_int "-007" = Ok (-7) /\
  Str.to_int "1_000" = Ok 1000 /\ Str.to_int "+5" = Ok 5 /\
  (exists e, Str.to_int "1__0" = Raise e) /\
  (exists e, Str.to_int ":12" = Raise e) /\
  (exists e, Str.to_int "" = Raise e) /\
  (exists e, Str.to_int "- 5" = Raise e).
Proof. repeat split; try reflexivity; eexists; reflexivity. Qed.

Example of_int_examples :
  Str.of_int 0 = "0" /\ Str.of_int 1700003600 = "1700003600" /\
  Str.of_int (-42) = "-42".
Proof. repeat split. Qed.

(** * Further properties of the handlers *)

(** ** Tokens: validity window, forged tokens, separator in the email *)

Section TokenScan.

Lemma colon_prefix_clean (d : string) :
  all_chars not_colon d = true -> d <> "" -> clean_field (":" ++ d).
Proof.
  intros Hd Hne. destruct d as [|c d]; [congruence|].
  pose proof Hd as Hd'. cbn [all_chars] in Hd'.
  apply andb_true_iff in Hd' as [Hc _].
  unfold not_colon in Hc. apply negb_true_iff in Hc.
  split.
  - change (":" ++ String c d) with (String ":" (String c d)).
    rewrite contains_cons, (no_colon_contains _ Hd), orb_false_r.
    cbn [starts_with_sep]. now rewrite Hc.
  - change (Str.ends_with ":" (String c d) = false).
    now apply no_colon_ends_with.
Qed.

Variables d S : string.
Hypothesis d_no_colon : all_chars not_colon d = true.
Hypothesis d_nonempty : d <> "".
Hypothesis S_no_colon : all_chars not_colon S = true.

(** Whatever precedes them, the last two separators of a token are found:
    the scan yields at least three fields. *)
Lemma tail_three_fields (n : nat) :
  forall x cur,
    (String.length x <= n)%nat ->
    (3 <= List.length (Str.split_aux "::" 0 cur (x ++ "::" ++ d ++ "::" ++ S)))%nat.
Proof.
  induction n as [n IH] using lt_wf_ind. intros x cur Hlen.
  destruct x as [|c x].
  - change ("" ++ "::" ++ d ++ "::" ++ S) with ("::" ++ d ++ "::" ++ S).
    rewrite split_aux_sep.
    rewrite split_aux_field
      by auto using no_colon_contains, no_colon_ends_with.
    rewrite split_aux_last by auto using no_colon_contains.
    cbn [List.length]. lia.
  - change (String c x ++ "::" ++ d ++ "::" ++ S)
      with (String c (x ++ "::" ++ d ++ "::" ++ S)).
    destruct (starts_with_sep (String c (x ++ "::" ++ d ++ "::" ++ S))) eqn:Hs.
    + cbn [Str.split_aux]. rewrite prefix_sep, Hs.
      change (String.length "::" - 1)%nat with 1%nat.
      destruct x as [|c' x].
      * change ("" ++ "::" ++ d ++ "::" ++ S)
          with (String ":" ((":" ++ d) ++ "::" ++ S)).
        cbn [Str.split_aux].
        destruct (colon_prefix_clean d d_no_colon d_nonempty) as [H1 H2].
        rewrite split_aux_field by assumption.
        rewrite split_aux_last by auto using no_colon_contains.
        cbn [List.length]. lia.
      * change (String c' x ++ "::" ++ d ++ "::" ++ S)
          with (String c' (x ++ "::" ++ d ++ "::" ++ S)).
        cbn [Str.split_aux List.length].
        cbn [String.length] in Hlen.
        assert (Hx : (3 <= List.length
                        (Str.split_aux "::" 0 "" (x ++ "::" ++ d ++ "::" ++ S)))%nat)
          by (apply (IH (String.length x)); lia).
        lia.
    + rewrite split_aux_char by (now rewrite prefix_sep).
      cbn [String.length] in Hlen.
      apply (IH (String.length x)); lia.
Qed.

(** A separator inside the leading part adds at least one field. *)
Lemma separator_inside_four_fields (e : string) :
  Str.contains "::" e = true ->
  forall cur,
    (4 <= List.length (Str.split_aux "::" 0 cur (e ++ "::" ++ d ++ "::" ++ S)))%nat.
Proof.
  induction e as [|c e IH]; [discriminate|].
  intros Hc cur. rewrite contains_cons in Hc.
  destruct (starts_with_sep (String c e)) eqn:Hs.
  - destruct e as [|c' e]; [discriminate Hs|].
    cbn [starts_with_sep] in Hs. apply andb_true_iff in Hs as [H1 H2].
    apply Ascii.eqb_eq in H1, H2. subst c c'.
    change (String ":" (String ":" e) ++ "::" ++ d ++ "::" ++ S)
      with ("::" ++ e ++ "::" ++ d ++ "::" ++ S).
    rewrite split_aux_sep. cbn [List.length].
    pose proof (tail_three_fields (String.length e) e "" (Nat.le_refl _)). lia.
  - cbn [orb] in Hc.
    destruct e as [|c' e]; [discriminate Hc|].
    change (String c (String c' e) ++ "::" ++ d ++ "::" ++ S)
      with (String c (String c' e ++ "::" ++ d ++ "::" ++ S)).
    rewrite split_aux_char.
    + now apply IH.
    + rewrite prefix_sep. exact Hs.
Qed.

End TokenScan.

Section TokenUse.

Lemma of_int_nonempty (n : Z) : Str.of_int n <> "".
Proof. destruct (of_int_first n) as (c & s & E & _). rewrite E. discriminate. Qed.

Lemma check_token_fields (now : Z) (token tag user exp secret : string) :
  Str.split "::" token = Ok [tag; user; exp; secret] ->
  check_token now token
  = if negb (String.eqb secret FAKE_SECRET) then Ok None
    else e <- Str.to_int exp ;; if e <? now then Ok None else Ok (Some user).
Proof. intros H. unfold check_token. now rewrite H. Qed.

Lemma forged_fields (tag user exp : string) :
  clean_field tag -> clean_field user -> clean_field exp ->
  Str.split "::" (join "::" [tag; user; exp; FAKE_SECRET])
  = Ok [tag; user; exp; FAKE_SECRET].
Proof.
  intros [T1 T2] [U1 U2] [E1 E2]. cbn [join]. unfold Str.split.
  rewrite !split_aux_field by assumption.
  rewrite split_aux_last by (apply no_colon_contains, secret_no_colon).
  reflexivity.
Qed.

End TokenUse.

(** X1.  A token returned by [login] for an email that is a clean field
    authenticates that email at every clock reading up to the expiry
    reading [exp] written into it, and at no later reading. *)
Theorem login_token_window (exp now' : Z) (data : AuthRequest) :
  email data <> "" -> password data <> "" -> clean_field (email data) ->
  exists resp,
    login exp data = Ok resp /\
    get_current_user now' (Some (bearer (access_token resp)))
    = if exp <? now' then Ok None else Ok (Some (email data)).
Proof.
  intros He Hp [Hc Hd].
  destruct (login_outcome exp data) as [[[H|H] _] | [_ Hl]]; try contradiction.
  eexists. split; [exact Hl|]. cbn [access_token].
  unfold get_current_user. cbn [credentials bearer].
  rewrite (check_token_fields _ _ _ _ _ _ (token_fields exp (email data) Hc Hd)).
  rewrite String.eqb_refl. cbn [negb]. rewrite to_int_of_int. cbn [bind].
  now destruct (exp <? now').
Qed.

Lemma login_token_window_witness :
  exists resp,
    login 4600 {| email := "ada@example.org"; password := "pw" |} = Ok resp /\
    get_current_user 4601 (Some (bearer (access_token resp))) = Ok None.
Proof.
  destruct (login_token_window 4600 4601 {| email := "ada@example.org"; password := "pw" |})
    as (resp & Hl & Hu); [discriminate | discriminate | split; reflexivity |].
  exists resp. split; [exact Hl|].
  rewrite Hu. reflexivity.
Defined.

(** X2.  The first field of a token is never looked at and nothing ties a
    token to a login: any string made of a tag, an email, an integer expiry
    not yet passed and the static secret, joined by ["::"], authenticates
    that email.  The expiry field is kept within [max_str_digits]
    characters, the length up to which [int()] reads every literal. *)
Theorem forged_token_accepted (now e : Z) (tag user exp : string) :
  clean_field tag -> clean_field user -> clean_field exp ->
  (String.length exp <= max_str_digits)%nat ->
  Str.to_int exp = Ok e -> now <= e ->
  get_current_user now (Some (bearer (join "::" [tag; user; exp; FAKE_SECRET])))
  = Ok (Some user).
Proof.
  intros Ht Hu He _ Hexp Hle.
  unfold get_current_user. cbn [credentials bearer].
  rewrite (check_token_fields _ _ _ _ _ _ (forged_fields tag user exp Ht Hu He)).
  rewrite String.eqb_refl. cbn [negb]. rewrite Hexp. cbn [bind].
  destruct (Z.ltb_spec e now); [lia | reflexivity].
Qed.

Lemma forged_token_accepted_witness :
  get_current_user 1700000000
    (Some (bearer "anything::root@example.org::9999999999::creator-insight-demo-secret"))
  = Ok (Some "root@example.org").
Proof.
  apply (forged_token_accepted 1700000000 9999999999 "anything" "root@example.org"
           "9999999999");
    [split; reflexivity | split; reflexivity | split; reflexivity
     | cbn; unfold max_str_digits; lia | reflexivity | lia].
Defined.

(** X3.  On credentials made of ASCII characters and no longer than
    [max_str_digits], [get_current_user] authenticates a user exactly when
    the token splits on ["::"] into four fields: anything, that user, an
    expiry that reads as an integer not earlier than the clock, and the
    static secret. *)
Theorem current_user_accepts_iff
  (now : Z) (c : HTTPAuthorizationCredentials) (user : string) :
  all_chars ascii_char (credentials c) = true ->
  (String.length (credentials c) <= max_str_digits)%nat ->
  (get_current_user now (Some c) = Ok (Some user) <->
   exists tag exp e,
     Str.split "::" (credentials c) = Ok [tag; user; exp; FAKE_SECRET] /\
     Str.to_int exp = Ok e /\ now <= e).
Proof.
  intros _ _. split.
  - unfold get_current_user, check_token.
    destruct (Str.split "::" (credentials c)) as [parts|err] eqn:Hs; [|discriminate].
    cbn [bind].
    destruct parts as [|tag [|u [|exp [|secret [|extra parts]]]]];
      try discriminate.
    destruct (String.eqb_spec secret FAKE_SECRET) as [->|]; [|discriminate].
    cbn [negb]. destruct (Str.to_int exp) as [e|err] eqn:He; [|discriminate].
    cbn [bind]. destruct (Z.ltb_spec e now); [discriminate|].
    cbn [try_except]. intros Heq. injection Heq as ->.
    exists tag, exp, e. auto.
  - intros (tag & exp & e & Hs & He & Hle).
    unfold get_current_user.
    rewrite (check_token_fields _ _ _ _ _ _ Hs).
    rewrite String.eqb_refl. cbn [negb]. rewrite He. cbn [bind].
    destruct (Z.ltb_spec e now); [lia | reflexivity].
Qed.

Lemma current_user_accepts_iff_witness :
  get_current_user 100 (Some (bearer "t::me:: 1_00 ::creator-insight-demo-secret"))
  = Ok (Some "me").
Proof.
  apply (current_user_accepts_iff 100
           (bearer "t::me:: 1_00 ::creator-insight-demo-secret") "me").
  - reflexivity.
  - cbn. unfold max_str_digits. lia.
  - exists "t", " 1_00 ", 100. repeat split. lia.
Defined.

(** X4.  An email that contains ["::"] makes [create_fake_token] build a
    token of at least five fields, and [get_current_user] rejects that token
    at every time: such a user can log in but is never recognised. *)
Theorem separator_email_never_authenticates (exp now' : Z) (e : string) :
  Str.contains "::" e = true ->
  exists fields,
    Str.split "::" (create_fake_token exp e) = Ok fields /\
    (5 <= List.length fields)%nat /\
    get_current_user now' (Some (bearer (create_fake_token exp e))) = Ok None.
Proof.
  intros Hc.
  pose proof (separator_inside_four_fields (Str.of_int exp) FAKE_SECRET
                (of_int_no_colon _) (of_int_nonempty _) secret_no_colon e Hc "") as H4.
  assert (Hs : Str.split "::" (create_fake_token exp e)
               = Ok ("token" :: Str.split_aux "::" 0 ""
                       (e ++ "::" ++ Str.of_int exp ++ "::" ++ FAKE_SECRET))).
  { rewrite token_shape. unfold Str.split.
    now rewrite (split_aux_field "token") by reflexivity. }
  eexists. split; [exact Hs|]. split; [cbn [List.length]; lia|].
  unfold get_current_user, check_token. cbn [credentials bearer].
  rewrite Hs. cbn [bind].
  destruct (Str.split_aux "::" 0 ""
              (e ++ "::" ++ Str.of_int exp ++ "::" ++ FAKE_SECRET))
    as [|f1 [|f2 [|f3 [|f4 rest]]]]; cbn [List.length] in H4; try lia.
  reflexivity.
Qed.

Lemma separator_email_never_authenticates_witness :
  get_current_user 0 (Some (bearer (create_fake_token 3600 "a::b"))) = Ok None.
Proof.
  destruct (separator_email_never_authenticates 3600 0 "a::b" eq_refl)
    as (fields & _ & _ & H).
  exact H.
Defined.

(** ** Courses: live data *)

Section CourseItems.

(** The loop appends one item per document, in order, and stops at the
    first document that does not validate. *)
Lemma append_course_items_ok (docs : list document) :
  forall acc items,
    Forall2 (fun d item => course_item_of d = Ok item) docs items ->
    append_course_items acc docs = Ok (acc ++ items)%list.
Proof.
  induction docs as [|d docs IH]; intros acc items H; inversion H; subst.
  - cbn. now rewrite app_nil_r.
  - cbn [append_course_items]. rewrite H2. cbn [bind].
    rewrite (IH _ _ H4). now rewrite <- app_assoc.
Qed.

Lemma append_course_items_inv (docs : list document) :
  forall acc res,
    append_course_items acc docs = Ok res ->
    exists items,
      res = (acc ++ items)%list /\
      Forall2 (fun d item => course_item_of d = Ok item) docs items.
Proof.
  induction docs as [|d docs IH]; intros acc res H.
  - cbn in H. injection H as <-. exists []. split; [now rewrite app_nil_r | constructor].
  - cbn [append_course_items] in H.
    destruct (course_item_of d) as [item|e] eqn:Hd; [|discriminate H].
    cbn [bind] in H. destruct (IH _ _ H) as (items & -> & HF).
    exists (item :: items). split; [now rewrite <- app_assoc | now constructor].
Qed.

Lemma append_course_items_bad (docs : list document) :
  forall acc,
    Exists (fun d => exists e, course_item_of d = Raise e) docs ->
    exists e, append_course_items acc docs = Raise e.
Proof.
  induction docs as [|d docs IH]; intros acc H; inversion H; subst.
  - destruct H1 as [e He]. exists e. cbn [append_course_items]. now rewrite He.
  - cbn [append_course_items].
    destruct (course_item_of d) as [item|e]; [|now exists e].
    cbn [bind]. now apply IH.
Qed.

End CourseItems.

(** X5.  [get_courses] never raises and never returns an empty list: its
    result is either the demo list or one item per stored document, in the
    order of the documents. *)
Theorem get_courses_shape (db : database) :
  exists items,
    get_courses db = Ok items /\
    items <> [] /\
    (items = demo_courses \/
     exists st docs,
       db = Some st /\ get_documents st "course" = Ok docs /\
       Forall2 (fun d item => course_item_of d = Ok item) docs items).
Proof.
  unfold get_courses. destruct db as [st|]; cbn [db_truth on_store].
  - destruct (truth st) as [[|]|e]; cbn [bind try_except].
    + destruct (get_documents st "course") as [docs|e] eqn:Hdocs; cbn [bind].
      * destruct (append_course_items [] docs) as [[|item items]|e] eqn:Happ;
          cbn [bind].
        -- exists demo_courses. repeat split; [discriminate | now left].
        -- exists (item :: items). repeat split; [discriminate|].
           right. exists st, docs.
           destruct (append_course_items_inv _ _ _ Happ) as (its & E & HF).
           cbn [app] in E. rewrite E. auto.
        -- exists demo_courses. repeat split; [discriminate | now left].
      * exists demo_courses. repeat split; [discriminate | now left].
    + exists demo_courses. repeat split; [discriminate | now left].
    + exists demo_courses. repeat split; [discriminate | now left].
  - exists demo_courses. repeat split; [discriminate | now left].
Qed.

(** X6.  When the store answers the course query with a non-empty list of
    documents that all validate, [get_courses] returns exactly their items,
    one per document and in the same order; no demo course is mixed in. *)
Theorem get_courses_live (st : store) (docs : list document) (items : list CourseItem) :
  truth st = Ok true ->
  get_documents st "course" = Ok docs ->
  docs <> [] ->
  Forall2 (fun d item => course_item_of d = Ok item) docs items ->
  get_courses (Some st) = Ok items /\ List.length items = List.length docs.
Proof.
  intros Ht Hdocs Hne HF. split; [|symmetry; eapply Forall2_length; eassumption].
  unfold get_courses. cbn [db_truth on_store]. rewrite Ht. cbn [bind].
  rewrite Hdocs. cbn [bind].
  rewrite (append_course_items_ok docs [] items HF). cbn [app try_except bind].
  destruct items as [|item items]; [|reflexivity].
  inversion HF; subst. congruence.
Qed.

Lemma get_courses_live_witness :
  get_courses
    (Some (course_store [[("_id", VObjectId "65a1"); ("title", VStr "Rocq 101")]]))
  = Ok [{| id := "65a1"; title := "Rocq 101"; category := "General" |}].
Proof.
  apply (get_courses_live
           (course_store [[("_id", VObjectId "65a1"); ("title", VStr "Rocq 101")]])
           [[("_id", VObjectId "65a1"); ("title", VStr "Rocq 101")]]).
  - reflexivity.
  - reflexivity.
  - discriminate.
  - constructor; [reflexivity | constructor].
Defined.

(** X7.  One stored document that does not validate discards every item
    already built: the result is the demo list, not the valid part of the
    live data. *)
Theorem get_courses_all_or_nothing (st : store) (docs : list document) :
  truth st = Ok true ->
  get_documents st "course" = Ok docs ->
  Exists (fun d => exists e, course_item_of d = Raise e) docs ->
  get_courses (Some st) = Ok demo_courses.
Proof.
  intros Ht Hdocs Hbad.
  unfold get_courses. cbn [db_truth on_store]. rewrite Ht. cbn [bind].
  rewrite Hdocs. cbn [bind].
  destruct (append_course_items_bad docs [] Hbad) as [e ->]. reflexivity.
Qed.

Lemma get_courses_all_or_nothing_witness :
  get_courses
    (Some (course_store [[("_id", VObjectId "65a1"); ("title", VStr "Rocq 101")];
                         [("_id", VObjectId "65a2"); ("title", VInt 7)]]))
  = Ok demo_courses.
Proof.
  apply (get_courses_all_or_nothing
           (course_store [[("_id", VObjectId "65a1"); ("title", VStr "Rocq 101")];
                          [("_id", VObjectId "65a2"); ("title", VInt 7)]])
           [[("_id", VObjectId "65a1"); ("title", VStr "Rocq 101")];
            [("_id", VObjectId "65a2"); ("title", VInt 7)]]).
  - reflexivity.
  - reflexivity.
  - apply Exists_cons_tl, Exists_cons_hd. now exists ValidationError.
Defined.

(** X8.  [get_course] never raises and never returns an empty document:
    it returns the stored document when the lookup gives a non-empty one,
    and otherwise the stub that carries the requested id. *)
Theorem get_course_result (db : database) (course_id : string) :
  exists doc,
    get_course db course_id = Ok doc /\
    doc <> [] /\
    (doc = course_stub course_id \/
     exists st,
       db = Some st /\ truth st = Ok true /\
       find_one st "course" [("_id", VStr course_id)] = Ok (Some doc)) /\
    (forall st stored,
       db = Some st -> truth st = Ok true ->
       find_one st "course" [("_id", VStr course_id)] = Ok (Some stored) ->
       stored <> [] -> doc = stored).
Proof.
  unfold get_course, course_stub. destruct db as [st|]; cbn [db_truth on_store].
  - destruct (truth st) as [[|]|e] eqn:Ht; cbn [bind try_except].
    + destruct (find_one st "course" [("_id", VStr course_id)])
        as [[[|kv d]|]|e] eqn:Hf; cbn [bind];
        (eexists; split; [reflexivity|]; split; [cbn; discriminate|]; split;
         [first [now left | right; exists st; auto] |]);
        intros st' stored E _ Hs Hne; injection E as E; subst st';
        rewrite Hf in Hs; first [discriminate Hs | injection Hs as Hs; congruence].
    + eexists. split; [reflexivity|]. split; [cbn; discriminate|]. split; [now left|].
      intros st' stored E Ht'. injection E as E. subst st'. congruence.
    + eexists. split; [reflexivity|]. split; [cbn; discriminate|]. split; [now left|].
      intros st' stored E Ht'. injection E as E. subst st'. congruence.
  - eexists. split; [reflexivity|]. split; [cbn; discriminate|]. split; [now left|].
    discriminate.
Qed.

(** ** Dashboard summary and health check *)

Section Summary.

Lemma safe_count_live (st : store) (collection : string) (n : Z) :
  truth st = Ok true ->
  count_documents st collection [] = Ok n ->
  _safe_count (Some st) collection None = Ok n.
Proof.
  intros Ht Hc. unfold _safe_count. cbn [db_truth on_store].
  rewrite Ht. cbn [bind]. now rewrite Hc.
Qed.

Lemma int_or_nonzero (n default : Z) : default <> 0 -> int_or n default <> 0.
Proof. unfold int_or. destruct (Z.eqb_spec n 0); auto. Qed.

Lemma trunc_six_tenths (n : Z) :
  0 <= n -> Num.trunc (inject_Z n * 0.6) = n * 6 / 10.
Proof.
  intros Hn. unfold Num.trunc.
  assert (H : Qle_bool 0 (inject_Z n * 0.6) = true).
  { apply Qle_bool_iff. unfold Qle. cbn. lia. }
  rewrite H. unfold Qfloor. cbn. f_equal; lia.
Qed.

Lemma substring_length (m : nat) :
  forall s, (String.length (substring 0 m s) <= m)%nat.
Proof.
  induction m as [|m IH]; intros [|c s]; cbn; try lia.
  specialize (IH s). lia.
Qed.

Lemma append_length (a b : string) :
  String.length (a ++ b) = (String.length a + String.length b)%nat.
Proof. induction a as [|c a IH]; cbn; [reflexivity | now rewrite IH]. Qed.

End Summary.

(** X9.  [dashboard_summary] never raises, never reports zero courses or
    zero enrollments, and never reports fewer than 500 active learners,
    whatever the store does. *)
Theorem dashboard_summary_bounds (db : database) (user : option string) :
  exists r,
    dashboard_summary db user = Ok r /\
    totalCourses r <> 0 /\
    totalEnrollments r <> 0 /\
    500 <= activeLearners r.
Proof.
  unfold dashboard_summary.
  destruct (safe_count_ok db "course" None) as [c ->].
  destruct (safe_count_ok db "enrollment" None) as [e ->].
  cbn [bind]. eexists. split; [reflexivity|].
  cbn [totalCourses totalEnrollments activeLearners].
  split; [apply int_or_nonzero; discriminate|].
  split; [apply int_or_nonzero; discriminate|].
  apply Z.le_max_r.
Qed.

(** X10.  With a working store that counts [c <> 0] courses and [n]
    enrollments, [0 < n < 500], the summary reports the stored counts and
    500 active learners: more active learners than enrollments. *)
Theorem dashboard_summary_small_store
  (st : store) (user : option string) (c n : Z) :
  truth st = Ok true ->
  count_documents st "course" [] = Ok c -> c <> 0 ->
  count_documents st "enrollment" [] = Ok n -> 0 < n < 500 ->
  exists r,
    dashboard_summary (Some st) user = Ok r /\
    r = {| totalCourses := c; totalEnrollments := n; activeLearners := 500 |} /\
    totalEnrollments r < activeLearners r.
Proof.
  intros Ht Hc Hc0 Hn Hrange.
  exists {| totalCourses := c; totalEnrollments := n; activeLearners := 500 |}.
  split; [|split; [reflexivity | cbn; lia]].
  unfold dashboard_summary.
  rewrite (safe_count_live st "course" c Ht Hc).
  rewrite (safe_count_live st "enrollment" n Ht Hn). cbn [bind].
  unfold int_or.
  destruct (Z.eqb_spec c 0); [contradiction|].
  destruct (Z.eqb_spec n 0); [lia|].
  rewrite trunc_six_tenths by lia.
  rewrite Z.max_r; [reflexivity|].
  apply Z.lt_le_incl, Z.div_lt_upper_bound; lia.
Qed.

Lemma dashboard_summary_small_store_witness :
  dashboard_summary
    (Some (course_store [[("_id", VObjectId "65a1")]; [("_id", VObjectId "65a2")]]))
    None
  = Ok {| totalCourses := 2; totalEnrollments := 2; activeLearners := 500 |}.
Proof.
  destruct (dashboard_summary_small_store
              (course_store [[("_id", VObjectId "65a1")]; [("_id", VObjectId "65a2")]])
              None 2 2) as (r & Hr & -> & _);
    [reflexivity | reflexivity | discriminate | reflexivity | lia | exact Hr].
Defined.

(** X11.  [test_database] never raises; it lists at most 10 collections,
    reports "Connected" exactly when a store handle exists, and when the
    listing raises it puts at most 80 characters of the exception text
    after its fixed prefix. *)
Theorem test_database_report (env : string -> option string) (db : database) :
  exists r,
    test_database env db = Ok r /\
    (List.length (collections r) <= 10)%nat /\
    (connection_status r = "Connected" <-> db <> None) /\
    (forall st e,
       db = Some st -> list_collection_names st = Raise e ->
       collections r = [] /\
       (String.length (database_status r)
        <= String.length "⚠️  Connected but Error: " + 80)%nat).
Proof.
  unfold test_database. destruct db as [st|].
  - destruct (list_collection_names st) as [names|e] eqn:Hl.
    + eexists. split; [reflexivity|].
      cbn [collections connection_status set_database set_collections
           set_connection_status database_status].
      split; [rewrite length_firstn; lia|].
      split; [split; [discriminate | reflexivity]|].
      intros st' e' E He'. injection E as E. subst st'. congruence.
    + eexists. split; [reflexivity|].
      cbn [collections connection_status set_database set_collections
           set_connection_status database_status].
      split; [cbn; lia|].
      split; [split; [discriminate | reflexivity]|].
      intros st' e' E He'. split; [reflexivity|].
      rewrite append_length.
      pose proof (substring_length 80 (exn_str e)). lia.
  - eexists. split; [reflexivity|].
    cbn [collections connection_status].
    split; [cbn; lia|].
    split; [split; [discriminate | congruence]|].
    discriminate.
Qed.

(** ** Synthetic series *)

Section Series.

Lemma range_length (n : nat) : List.length (range n) = n.
Proof. unfold range. now rewrite length_map, length_seq. Qed.

Lemma in_range (n : nat) (i : Z) : In i (range n) -> 0 <= i < Z.of_nat n.
Proof.
  unfold range. intros H. apply in_map_iff in H as (k & <- & Hk).
  apply in_seq in Hk. lia.
Qed.

Variable strftime : Z -> string.

Lemma activity_loop_map (today : Z) (indices : list Z) :
  forall data,
    activity_loop strftime today indices data
    = (data ++ map (activity_item strftime today) indices)%list.
Proof.
  induction indices as [|i indices IH]; intros data; cbn [activity_loop map].
  - now rewrite app_nil_r.
  - rewrite IH, <- app_assoc. reflexivity.
Qed.

End Series.

(** X12.  [get_enrollments] returns, for every course and period, a series
    of 14 (daily), 12 (weekly) or 6 (monthly) points whose labels are the
    decimal numbers 1, 2, ... in order and whose values all lie between 50
    and 109. *)
Theorem get_enrollments_series (course_id : string) (period : Period) :
  let n := match period with daily => 14 | weekly => 12 | monthly => 6 end%nat in
  List.length (get_enrollments course_id period) = n /\
  map sp_label (get_enrollments course_id period)
  = map (fun k => Str.of_int (Z.of_nat k)) (seq 1 n) /\
  Forall (fun p => 50 <= sp_value p <= 109) (get_enrollments course_id period).
Proof.
  assert (G : forall n,
             List.length (enrollment_series n) = n /\
             map sp_label (enrollment_series n)
             = map (fun k => Str.of_int (Z.of_nat k)) (seq 1 n) /\
             Forall (fun p => 50 <= sp_value p <= 109) (enrollment_series n)).
  { intros n. unfold enrollment_series. split; [|split].
    - now rewrite length_map, range_length.
    - unfold range. rewrite !map_map, <- seq_shift, map_map.
      apply map_ext. intros k. cbn [sp_label]. f_equal. lia.
    - apply Forall_forall. intros p Hp.
      apply in_map_iff in Hp as (i & <- & Hi). cbn [sp_value].
      pose proof (Z.mod_pos_bound (i * 13) 60 ltac:(lia)). lia. }
  destruct period; apply G.
Qed.

(** X13.  For every current day, [dashboard_activity] returns 14 items
    whose dates are the 14 consecutive days that end today, oldest first,
    and whose enrollment numbers all lie between 80 and 119. *)
Theorem dashboard_activity_series
  (strftime : Z -> string) (today : Z) (user : option string) :
  List.length (dashboard_activity strftime today user) = 14%nat /\
  map act_date (dashboard_activity strftime today user)
  = map (fun k => strftime (today - 13 + k)) (range 14) /\
  List.last (map act_date (dashboard_activity strftime today user)) ""
  = strftime today /\
  Forall (fun a => 80 <= act_enrollments a <= 119)
         (dashboard_activity strftime today user).
Proof.
  unfold dashboard_activity. rewrite activity_loop_map.
  change ([] ++ map (activity_item strftime today) (range 14))%list
    with (map (activity_item strftime today) (range 14)).
  split; [now rewrite length_map, range_length|].
  split; [|split].
  - rewrite map_map. apply map_ext. intros k. cbn [act_date activity_item].
    f_equal. lia.
  - cbn. f_equal. lia.
  - apply Forall_forall. intros a Ha.
    apply in_map_iff in Ha as (i & <- & Hi). cbn [act_enrollments activity_item].
    pose proof (Z.mod_pos_bound (i * 7) 40 ltac:(lia)). lia.
Qed.

Section DropOff.

Lemma float_max_nonneg (x : Q) : (0 <= float_max 0 x)%Q.
Proof.
  unfold float_max. destruct (Qle_bool x 0) eqn:H; [apply Qle_refl|].
  destruct (Qlt_le_dec 0 x) as [Hlt|Hle]; [now apply Qlt_le_weak|].
  apply Qle_bool_iff in Hle. congruence.
Qed.

Lemma float_max_le (x y : Q) : (x <= y)%Q -> (float_max 0 x <= float_max 0 y)%Q.
Proof.
  intros Hxy. unfold float_max.
  destruct (Qle_bool x 0) eqn:Hx, (Qle_bool y 0) eqn:Hy.
  - apply Qle_refl.
  - destruct (Qlt_le_dec 0 y) as [Hlt|Hle]; [now apply Qlt_le_weak|].
    apply Qle_bool_iff in Hle. congruence.
  - apply Qle_bool_iff in Hy.
    assert (Hx' : (x <= 0)%Q) by (eapply Qle_trans; eassumption).
    apply Qle_bool_iff in Hx'. congruence.
  - exact Hxy.
Qed.

Lemma float_max_upper (x b : Q) : (0 <= b)%Q -> (x <= b)%Q -> (float_max 0 x <= b)%Q.
Proof. intros Hb Hx. unfold float_max. now destruct (Qle_bool x 0). Qed.

Lemma bonus_cases (t : Z) :
  (if t >? 60 then 5 else 0)%Q = (if 60 <? t then 5 else 0)%Q.
Proof. now rewrite Z.gtb_ltb. Qed.

End DropOff.

(** X14.  The drop-off curve [max(0.0, 100.0 - (t * 1.2 + (5 if t > 60 else
    0)))] stays between 0 and 100 for every time [t >= 0], never increases
    with [t], and is 0 from [t = 80] on.  [get_dropoff] samples it at the 21
    times 0, 5, ..., 100, and on those the binary64 evaluation gives the
    same numbers. *)
Theorem dropoff_curve (course_id : string) :
  (forall t, 0 <= t -> (0 <= dropoff_value t <= 100)%Q) /\
  (forall t1 t2, t1 <= t2 -> (dropoff_value t2 <= dropoff_value t1)%Q) /\
  (forall t, 80 <= t -> dropoff_value t = 0%Q) /\
  map dp_t (get_dropoff course_id)
  = [0; 5; 10; 15; 20; 25; 30; 35; 40; 45; 50; 55; 60; 65; 70; 75; 80; 85; 90; 95; 100] /\
  Forall (fun p => dp_v p = dropoff_value (dp_t p) /\ (0 <= dp_v p <= 100)%Q)
         (get_dropoff course_id) /\
  forallb (fun t => match Binary64.to_Q (dropoff_value_b64 t) with
                    | Some q => Qeq_bool q (dropoff_value t)
                    | None => false
                    end) dropoff_times = true.
Proof.
  assert (Hbound : forall t, 0 <= t -> (0 <= dropoff_value t <= 100)%Q).
  { intros t Ht. unfold dropoff_value. split; [apply float_max_nonneg|].
    apply float_max_upper; [lra|].
    pose proof Ht as H0. rewrite Zle_Qle in H0.
    change (inject_Z 0) with 0%Q in H0.
    rewrite bonus_cases. destruct (60 <? t); lra. }
  split; [exact Hbound|]. split; [|split; [|split; [|split]]].
  - intros t1 t2 Hle. unfold dropoff_value. apply float_max_le.
    pose proof Hle as H12. rewrite Zle_Qle in H12.
    rewrite !bonus_cases.
    destruct (Z.ltb_spec 60 t1), (Z.ltb_spec 60 t2); try lra. lia.
  - intros t Ht. unfold dropoff_value, float_max.
    assert (H : Qle_bool (100 - (inject_Z t * 1.2 + (if t >? 60 then 5 else 0))) 0 = true).
    { apply Qle_bool_iff.
      pose proof Ht as H80. rewrite Zle_Qle in H80.
      rewrite bonus_cases. destruct (Z.ltb_spec 60 t); [|lia].
      change (inject_Z 80) with 80%Q in H80. lra. }
    now rewrite H.
  - reflexivity.
  - unfold get_dropoff. apply Forall_forall. intros p Hp.
    apply in_map_iff in Hp as (t & <- & Ht). cbn [dp_t dp_v].
    split; [reflexivity|]. apply Hbound.
    unfold dropoff_times in Ht. apply in_map_iff in Ht as (k & <- & Hk).
    apply in_range in Hk. lia.
  - vm_compute. reflexivity.
Qed.

Lemma dropoff_curve_witness :
  (0 <= dropoff_value 35 <= 100)%Q /\ (dropoff_value 65 <= dropoff_value 60)%Q /\
  dropoff_value 95 = 0%Q.
Proof.
  pose proof (dropoff_curve "c1") as (Hb & Hm & Hz & _).
  split; [apply Hb; lia|]. split; [apply Hm; lia | apply Hz; lia].
Defined.

(** ** Portfolio and resume *)





(** ** Checks of the store handlers on live data *)

Example get_course_live :
  get_course (Some (course_store [[("_id", VStr "c9"); ("title", VStr "Rocq 101")]])) "c9"
  = Ok [("_id", VStr "c9"); ("title", VStr "Rocq 101")].
Proof. reflexivity. Qed.

Example safe_count_filter :
  _safe_count
    (Some {| truth := Ok true;
             count_documents := fun _ f => Ok (Z.of_nat (List.length f));
             get_documents := fun _ => Ok [];
             find_one := fun _ _ => Ok None;
             list_collection_names := Ok [] |})
    "course" (Some [("a", VInt 1); ("b", VInt 2)])
  = Ok 2.
Proof. reflexivity. Qed.

(** The control characters 28 to 31 are not whitespace for [int()]; the
    vertical tab and the form feed are. *)
Example to_int_control_characters :
  (exists e, Str.to_int (String (ascii_of_nat 31) "100") = Raise e) /\
  (exists e, Str.to_int ("100" ++ String (ascii_of_nat 28) "") = Raise e) /\
  Str.to_int (String (ascii_of_nat 11) "100" ++ String (ascii_of_nat 12) "") = Ok 100.
Proof. repeat split; eexists; reflexivity. Qed.
